(* ===== verification/_CoqProject ===== *)
-Q . S2P
Prelude.v
PyStr.v
Utf8.v
Sentiment.v
Csv.v
Loader.v
Aggregate.v
Summary.v
App.v
Session.v
Pipeline.v
Server.v
