(* ===== verification/Prelude.v ===== *)
(** * Product Feedback Analyzer: a verification development of src/app.py

    The program is one Streamlit script, re-run from the top on every
    interaction.  At start-up it builds the OpenAI client from the
    environment (lines 9-10) and shows a title and two input widgets
    (lines 12-17).  A press of the "Analyze Feedback" button runs a
    sequential pipeline (lines 64-103):

      load_feedback -> analyze_sentiment per item -> DataFrame ->
      value_counts + pie chart -> table -> generate_gpt_summary ->
      to_csv + encode('utf-8') for the download button.

    Within a run no state is carried over from earlier runs: Streamlit
    keeps only the widgets' values, and [st.button] is true only in the
    run its click triggered.  The effects are the page elements shown,
    the call to the text-generation service, and exceptions.

    ** Files, in dependency order (as _CoqProject lists them)

    - [Prelude] (this file): Python values shared by every component.
      [pystr] is a [str] as its list of code points ([Z]), [lit] a str
      literal, [exn] a raised exception (class name and [str(e)]).
      [result] is the outcome of code that may raise, with [let*] in
      [pfa_scope].  Also here: generic lemmas on lists, a bit-level
      lemma on [Z.lor], the tactic [zcase], and the hint databases
      [pfa] and [pfa_rw].
    - [PyStr], Module [PyStr]: [str.strip] ([lstrip], [rstrip]),
      [str.splitlines] (CPython's loop: CRLF is one break, no trailing
      empty line), [str.join] and [str.endswith].  Whitespace and line
      boundaries are CPython's exact Unicode sets.
    - [Utf8], Module [Utf8]: CPython's strict codec.  [encode] builds
      each byte with [Z.lor], [Z.shiftr] and [Z.land] and raises
      CPython's [UnicodeEncodeError] message at a surrogate (the
      character or the run of surrogates, and its position, carried by
      [encode_at]); [decode] rejects overlong forms, surrogates and code
      points above U+10FFFF, and raises CPython's exact
      [UnicodeDecodeError] message (byte, position, reason), its offset
      carried by [decode_at].
    - [Sentiment], Module [Sentiment]: [analyze_sentiment] (lines
      33-41).  The TextBlob scorer is the class [Polarity] (text to a
      [Q] in [-1, 1]).  The literals 0.1 and -0.1 are the IEEE doubles
      they denote ([py_0_1]).  [table_polarity] is a test scorer.
    - [Csv], Module [Csv]: the writer behind [df.to_csv(index=False)]
      (Python 3.11 csv module, QUOTE_MINIMAL, line terminator LF) and
      a reader.  The reader is the state machine of the csv
      tokenizers: with its flag off, [csv.reader] for the "parse back"
      of the download ([parse_csv]); with it on, pandas' tokenizer for
      [pd.read_csv] (line 23, [pd_records]), whose extra state skips a
      line of spaces and tabs only ([skip_blank_lines]).
    - [Loader], Module [Loader]: [load_feedback] (lines 20-30) on its
      three branches.  [read_csv_col0] is the csv upload;
      [text_lines] is the comprehension of lines 27 and 29.
    - [Aggregate], Module [Aggregate]: the DataFrame ([make_df]) and
      [value_counts]: first-appearance order, then a stable sort by
      count, written as an insertion sort (numpy's argsort is stable on
      arrays this short: at most three labels).  Also the pie's wedges
      with colours cycled by position ([pie_wedges]) and the
      percentage [autopct] prints, a wedge's value over the sum of the
      values ([wedge_pct]).
    - [Summary], Module [Summary]: [generate_gpt_summary] (lines
      44-61).  The client is the class [ChatClient] (a request gives a
      response or raises).  Also the prompt with its 50-item prefix,
      the request's fixed parameters, and the three ways the try body
      raises.
    - [App], Module [App]: a run of the script in a small
      state-and-halt monad [run] (stdpp's [MRet]/[MBind]).  Its state
      is the ordered list of page [element]s; it ends normally, by
      [st.stop()] or by an uncaught exception.  [client_init] is start-up,
      [header] lines 12-17, [analyze] the button handler ([analyze_pre]
      up to the summary's heading, the summary, [analyze_post]),
      [script] the whole run.
    - [Session], Module [Session]: the reruns.  [widgets] holds the
      uploader's file and the text area's text (lines 16-17).  An
      [event] commits widget changes, with or without a click (line
      64).  [rerun] runs [App.script] on the updated values; a session
      is their fold ([session]) and the step relation [steps].
    - [Pipeline], Module [Pipeline]: the specification's abstract
      pipeline [spec_run] (EmptyInput, failure, or records, label
      counts, summary and exported rows).  [observe] reads a finished
      page back as such an outcome.
    - [Server], Module [Server] (ITree, Paco): the service call of line
      50 as an event [Chat] of an interaction tree; the run as a tree
      ([analyze_tree], [script_tree]) built from [App.analyze_pre] and
      [App.analyze_post] around that event.  Streamlit's rerun loop is
      [server], an infinite tree ([ITree.iter]) that waits for an
      interaction, reruns the script and renders its page.

    ** What the theorems show (claim ids C1-C35 in PROJECT.json)

    - Refinement (Pipeline, C2): a pressed button's run, read back by
      [observe], is [spec_run] applied to the loader's result.  Records
      come from the table, counts from the pie, the summary from the
      markdown, and the export from the decoded and parsed download.
    - The run (App): a run with items shows exactly the chart, table,
      summary and download, in order (C1).  EmptyInput stops after the
      error box (C4).  A failing service still leaves chart, table and
      download (C5).  A loader exception ends the run after the header
      (C29).  A missing key crashes every run at start-up (C24).  A
      blank .csv upload crashes with EmptyDataError where the same text
      pasted gives EmptyInput (C30).
    - The download: its bytes decode and parse back to the header and
      one row per item, in order (C3).  The condition is no bare
      carriage return, and pasted text meets it always (C17).
    - Sessions (Session): a run without a click shows the header only,
      so results vanish at the next interaction (C18, by induction on
      [steps]).  The uploader accepts a name ending in .CSV, which the
      loader reads as text, every line (the header included) becoming
      an item (C31).
    - Termination and liveness (Server): whatever the service answers,
      every run terminates after at most one request, which is the
      summary request exactly when the button was pressed with items,
      and yields [App.script]'s page (C34, by induction on the
      inductive [finishes]).  The rerun loop answers every interaction
      with exactly the requests the script makes and then one page,
      the one [Session.rerun] computes, and waits again, forever (C20,
      the coinductive [serves], by pcofix).
    - The classifier (C6): each branch exactly, boundaries included.
      Two further lemmas show it is monotone and its thresholds are
      tight at double precision.
    - Aggregation: the pie's three counts are the numbers of items
      above 0.1, below -0.1 and in between, and sum to the number of
      items (C7).  [value_counts] lists each label once with its count,
      sorted and summing to the row count (C8).  It equals the
      documented order, with ties in first-appearance order (C9,
      proved against [value_counts_ref]).  A wedge's percentage is its
      label's share of the items (C22).  The pie has at most three
      wedges, none empty (C23).  The most frequent label is drawn
      green, whichever it is (C25).
    - The summary: the prompt's lines are the header, the first 50
      items and the footer (C10).  Only the first 50 items matter
      (C32).  Every outcome is the stripped answer or the failure
      marker plus the error text (C11, C12).
    - The loader and the str methods: text items are non-empty,
      stripped and free of line breaks (C13).  No item exactly when
      the text is blank (C14).  Pasted items read back (C21).  strip
      is characterised (C19) and idempotent.  A csv upload of plain
      lines gives the lines after the header unstripped, without the
      blank and NA ones (C26).  A byte order mark is skipped on a csv
      upload and kept as U+FEFF on a text upload (C27).
    - The codecs: the CSV round trip (C15) and how it fails on a bare
      carriage return (C28).  UTF-8 decode and encode are inverse on
      scalar values (C16).  A decoding error is reported at the end of
      the longest well-formed prefix (C33), an encoding error at the
      first surrogate (C35), each with CPython's message.

    ** Bounds, fuel and choices

    Every definition is structurally recursive: no fuel.  The one loop
    that does not end, Streamlit's, is an interaction tree, and its
    property is coinductive (Paco).  Loops that
    consume several characters per step are proved by induction on the
    length ([list_len_ind]).  Integers are [Z].  Code points lie in
    [0, 0x10FFFF] and bytes in [0, 256); the codec theorems state these
    bounds as hypotheses ([scalar], [is_byte]).  Floats are the
    rationals of the doubles involved.  The test scorer, the test
    clients and the demo data (in [Sentiment], [Summary] and [App]) are
    only used to instantiate theorems at concrete inputs.

    ** Not modelled

    The TextBlob lexicon sits behind its interface ([Polarity]).  The
    remote service is a function ([ChatClient]) in [App] and an event
    answered arbitrarily in [Server]; what it computes, its latency and
    the client library's own retries are not modelled.  Also not
    modelled:
    - matplotlib's drawing and the '%1.1f%%' formatting;
    - Streamlit's page configuration, layout and spinner;
    - pandas' numeric dtype inference.  A csv column of numbers comes
      back through float parsing and repr ("1.0" for "1"), which needs
      an exact model of both;
    - the C tokenizer's handling of malformed quoting;
    - exceptions that are BaseException but not Exception. *)

From stdpp Require Export base list decidable strings.
From Stdlib Require Export ZArith Lia.
From Stdlib Require Ascii.

Declare Scope pfa_scope.
Delimit Scope pfa_scope with pfa.

(** A Python [str] is the sequence of its Unicode code points. *)
Abbreviation pystr := (list Z).

(** A Python literal written in ASCII, as the [str] it denotes. *)
Definition lit (s : string) : pystr :=
  map (fun a => Z.of_nat (Ascii.nat_of_ascii a)) (String.list_ascii_of_string s).

(** A raised exception: its class name and [str(e)]. *)
Record exn := Exn { exn_type : pystr; exn_msg : pystr }.

(** The outcome of Python code that may raise. *)
Inductive result (A : Type) : Type :=
| Ok (a : A)
| Raise (e : exn).
Arguments Ok {A} a.
Arguments Raise {A} e.

Definition bind {A B} (r : result A) (k : A -> result B) : result B :=
  match r with
  | Ok a => k a
  | Raise e => Raise e
  end.

Notation "'let*' x := r 'in' k" := (bind r (fun x => k))
  (at level 10, x name, r at level 100, k at level 200) : pfa_scope.

Create HintDb pfa discriminated.
Create Rewrite HintDb pfa_rw.

Ltac invc H := inversion H; clear H; subst.

Section ListFacts.
Context {A B : Type}.

(** What a comprehension [[f(x) for x in l if p(x)]] keeps. *)
Lemma Forall_map_filter (Q : A -> Prop) (P : B -> Prop) (f : A -> B) (p : A -> bool) l :
  Forall Q l -> (forall x, Q x -> p x = true -> P (f x)) ->
  Forall P (map f (List.filter p l)).
Proof.
  intros HQ H. induction HQ as [|x l Hx _ IH]; simpl; [constructor|].
  destruct (p x) eqn:E; simpl; auto.
Qed.

(** A comprehension whose test holds everywhere and whose map is the
    identity there returns its input. *)
Lemma map_filter_id (f : A -> A) (p : A -> bool) l :
  Forall (fun x => p x = true /\ f x = x) l -> map f (List.filter p l) = l.
Proof.
  induction 1 as [|x l [Hp Hf] _ IH]; simpl; [done|]. by rewrite Hp; simpl; rewrite Hf, IH.
Qed.

Lemma length_filter_le (p : A -> bool) (l : list A) :
  length (List.filter p l) <= length l.
Proof. induction l as [|x l IH]; simpl; [lia|]. destruct (p x); simpl; lia. Qed.
(** Induction on the length of a list, for loops that consume more
    than one element per step. *)
Lemma list_len_ind (P : list A -> Prop) :
  (forall l, (forall l', length l' < length l -> P l') -> P l) ->
  forall l, P l.
Proof.
  intros H l. remember (length l) as n eqn:En.
  revert l En. induction (lt_wf n) as [n _ IH]. intros l ->.
  apply H. intros l' Hl'. eapply IH; [exact Hl'|reflexivity].
Qed.

Lemma Forall_reverse_iff (P : A -> Prop) (l : list A) :
  Forall P (reverse l) <-> Forall P l.
Proof. rewrite !Forall_forall. by setoid_rewrite elem_of_reverse. Qed.

Lemma filter_nil_iff (p : A -> bool) (l : list A) :
  List.filter p l = [] <-> Forall (fun x => p x = false) l.
Proof.
  induction l as [|x l IH]; simpl; [split; constructor|].
  rewrite Forall_cons. destruct (p x); [split; [discriminate|intros [? _]; discriminate]|].
  rewrite IH. split; [intros H; split; done|intros [_ H]; exact H].
Qed.
(** [zip(l, [f(x) for x in l])]. *)
Lemma zip_map_r (f : A -> B) (l : list A) : zip l (map f l) = map (fun x => (x, f x)) l.
Proof. induction l as [|x l IH]; simpl; [done|]. by rewrite IH. Qed.
End ListFacts.

(** ** Integers *)

(** Or-ing a value below [2^k] into a multiple of [2^k] adds it: the
    shape of every byte the UTF-8 encoder builds with [|]. *)
Lemma lor_mul_pow2_small q k y :
  (0 <= q)%Z -> (0 <= k)%Z -> (0 <= y < 2 ^ k)%Z ->
  Z.lor (q * 2 ^ k) y = (q * 2 ^ k + y)%Z.
Proof.
  intros Hq Hk Hy.
  assert (Hland : Z.land (q * 2 ^ k) y = 0%Z).
  { apply Z.bits_inj_0. intros i. rewrite Z.land_spec, <- Z.shiftl_mul_pow2 by lia.
    destruct (Z.lt_ge_cases i k) as [Hi|Hi].
    - destruct (Z.lt_ge_cases i 0); [by rewrite Z.testbit_neg_r|].
      by rewrite Z.shiftl_spec_low.
    - rewrite <- (Z.mod_small y (2 ^ k)) by lia.
      rewrite (Z.mod_pow2_bits_high y k i) by lia. apply andb_false_r. }
  rewrite <- Z.lxor_lor by exact Hland. symmetry. by apply Z.add_nocarry_lxor.
Qed.

(** Case on the first comparison of [Z]s left in the goal, closing the
    branches that contradict the hypotheses. *)
Ltac zcase :=
  match goal with
  | |- context [Z.ltb ?x ?y] => destruct (Z.ltb_spec x y)
  | |- context [Z.leb ?x ?y] => destruct (Z.leb_spec x y)
  | |- context [Z.eqb ?x ?y] => destruct (Z.eqb_spec x y)
  end; cbn beta iota delta [andb orb negb]; try lia.

(** The same on a hypothesis. *)
Ltac zcase_in H :=
  match type of H with
  | context [Z.ltb ?x ?y] => destruct (Z.ltb_spec x y)
  | context [Z.leb ?x ?y] => destruct (Z.leb_spec x y)
  | context [Z.eqb ?x ?y] => destruct (Z.eqb_spec x y)
  end; cbn beta iota delta [andb orb negb] in H; try lia.

Lemma bind_Ok {A B} (a : A) (k : A -> result B) : bind (Ok a) k = k a.
Proof. reflexivity. Qed.

Lemma sum_list_perm (l1 l2 : list nat) : l1 ≡ₚ l2 -> sum_list l1 = sum_list l2.
Proof. induction 1; simpl; lia. Qed.

#[export] Hint Rewrite @bind_Ok : pfa_rw.
#[export] Hint Resolve length_filter_le : pfa.
