(* ===== verification/PyStr.v ===== *)
(** * PyStr: the [str] methods that src/app.py calls

    A Python [str] is modelled as its list of code points ([pystr]).
    [isspace] and [is_linebreak] are the exact sets CPython 3.11 uses
    for [str.strip()] / [str.isspace()] and for [str.splitlines()];
    [strip], [splitlines], [join] and [endswith] follow the loops of
    CPython's [do_strip], [STRINGLIB(splitlines)], [str.join] and
    [tailmatch]. *)

From S2P Require Import Prelude.

Module PyStr.
Local Open Scope Z_scope.

(** [Py_UNICODE_ISSPACE]: the code points [c] with [chr(c).isspace()]. *)
Definition isspace (c : Z) : bool :=
  ((9 <=? c) && (c <=? 13)) || ((28 <=? c) && (c <=? 32))
  || (c =? 133) || (c =? 160) || (c =? 5760)
  || ((8192 <=? c) && (c <=? 8202))
  || (c =? 8232) || (c =? 8233) || (c =? 8239) || (c =? 8287)
  || (c =? 12288).

(** [Py_UNICODE_ISLINEBREAK]: the line boundaries of [str.splitlines]. *)
Definition is_linebreak (c : Z) : bool :=
  ((10 <=? c) && (c <=? 13)) || ((28 <=? c) && (c <=? 30))
  || (c =? 133) || (c =? 8232) || (c =? 8233).

(** [str.lstrip()]: drop leading whitespace. *)
Fixpoint lstrip (s : pystr) : pystr :=
  match s with
  | [] => []
  | c :: s' => if isspace c then lstrip s' else s
  end.

(** [str.rstrip()]: drop trailing whitespace. *)
Definition rstrip (s : pystr) : pystr := reverse (lstrip (reverse s)).

(** [str.strip()] ([do_strip] with [striptype == BOTHSTRIP]): the left
    index advances over whitespace, then the right one retreats. *)
Definition strip (s : pystr) : pystr := rstrip (lstrip s).

(** The loop of [STRINGLIB(splitlines)] with [keepends=False]: [cur] is
    the current line, reversed. A line is appended at each break and,
    when the input does not end with a break, at its end; after a
    [\r] a directly following [\n] is part of the same break. *)
Fixpoint splitlines_go (cur : pystr) (s : pystr) : list pystr :=
  match s with
  | [] => [reverse cur]
  | c :: s' =>
      if is_linebreak c then
        reverse cur ::
          match s' with
          | [] => []
          | d :: s'' =>
              if (c =? 13) && (d =? 10) then
                match s'' with
                | [] => []
                | _ :: _ => splitlines_go [] s''
                end
              else splitlines_go [] s'
          end
      else splitlines_go (c :: cur) s'
  end.

(** [str.splitlines()]: the empty string has no lines. *)
Definition splitlines (s : pystr) : list pystr :=
  match s with
  | [] => []
  | _ => splitlines_go [] s
  end.

(** [sep.join(xs)]. *)
Definition join (sep : pystr) (xs : list pystr) : pystr :=
  match xs with
  | [] => []
  | x :: xs' => x ++ concat (map (fun y => sep ++ y) xs')
  end.

(** [s.endswith(suffix)] ([tailmatch] with the whole string as range). *)
Definition endswith (s suffix : pystr) : bool :=
  (length suffix <=? length s)%nat
  && bool_decide (drop (length s - length suffix) s = suffix).

(** ** Properties of [strip] *)

Abbreviation all_space := (Forall (fun c => isspace c = true)).

(** A string with no whitespace at either end. *)
Definition edges_not_space (t : pystr) : bool :=
  match head t, last t with
  | Some c, Some d => negb (isspace c) && negb (isspace d)
  | _, _ => true
  end.

Lemma lstrip_split s : exists a, s = a ++ lstrip s /\ all_space a.
Proof.
  induction s as [|c s [a [Ha Hsp]]]; simpl; [by exists []|].
  destruct (isspace c) eqn:E.
  - exists (c :: a). simpl. rewrite <- Ha. split; [done|by constructor].
  - by exists [].
Qed.

Lemma lstrip_head s c t : lstrip s = c :: t -> isspace c = false.
Proof.
  induction s as [|d s IH]; simpl; [done|].
  destruct (isspace d) eqn:E; [exact IH|]. by intros [= -> _].
Qed.

Lemma lstrip_all_space s : all_space s -> lstrip s = [].
Proof. induction 1 as [|c s Hc _ IH]; simpl; [done|]. by rewrite Hc. Qed.

Lemma lstrip_app_space a t : all_space a -> lstrip (a ++ t) = lstrip t.
Proof. induction 1 as [|c a Hc _ IH]; simpl; [done|]. by rewrite Hc. Qed.

Lemma lstrip_no_lead t : (forall c t', t = c :: t' -> isspace c = false) -> lstrip t = t.
Proof. destruct t as [|c t]; simpl; [done|]. intros H. by rewrite (H c t). Qed.

Lemma rstrip_split s : exists b, s = rstrip s ++ b /\ all_space b.
Proof.
  destruct (lstrip_split (reverse s)) as [a [Ha Hsp]]. exists (reverse a).
  unfold rstrip. split; [|by apply Forall_reverse_iff].
  rewrite <- reverse_app, <- Ha. by rewrite reverse_involutive.
Qed.

Lemma rstrip_last s d : last (rstrip s) = Some d -> isspace d = false.
Proof.
  unfold rstrip. rewrite last_reverse. intros H.
  destruct (lstrip (reverse s)) as [|c t] eqn:E; [done|].
  simpl in H. injection H as ->. exact (lstrip_head _ _ _ E).
Qed.

Lemma edges_intro t :
  (forall c t', t = c :: t' -> isspace c = false) ->
  (forall d, last t = Some d -> isspace d = false) ->
  edges_not_space t = true.
Proof.
  unfold edges_not_space. intros Hh Hl.
  destruct t as [|c t']; [done|]. destruct (last (c :: t')) as [d|] eqn:E; [|done].
  simpl. by rewrite (Hh c t' eq_refl), (Hl d eq_refl).
Qed.

Lemma strip_split s : exists a b, s = a ++ strip s ++ b /\ all_space a /\ all_space b.
Proof.
  destruct (lstrip_split s) as [a [Ha Hsa]].
  destruct (rstrip_split (lstrip s)) as [b [Hb Hsb]].
  exists a, b. unfold strip. by rewrite <- Hb.
Qed.

Lemma strip_edges s : edges_not_space (strip s) = true.
Proof.
  destruct (rstrip_split (lstrip s)) as [b [Hb _]].
  apply edges_intro; [|apply rstrip_last].
  intros c t' Ht. apply (lstrip_head s c (t' ++ b)). unfold strip in Ht. by rewrite Hb, Ht.
Qed.

(** C19: [str.strip()] returns the string between a whitespace prefix and a
    whitespace suffix, and what it returns neither starts nor ends
    with whitespace. *)
Theorem strip_spec s :
  exists a b, s = a ++ strip s ++ b /\ all_space a /\ all_space b
              /\ edges_not_space (strip s) = true.
Proof.
  destruct (strip_split s) as (a & b & ? & ? & ?).
  exists a, b. split_and!; [done..|apply strip_edges].
Qed.

(** A string with no whitespace at its ends is left as it is. *)
Lemma strip_edges_id t : edges_not_space t = true -> strip t = t.
Proof.
  unfold edges_not_space, strip, rstrip. intros H.
  destruct t as [|c t']; [done|].
  destruct (last (c :: t')) as [d|] eqn:E; [|by apply last_None in E].
  simpl in H. apply andb_prop in H as [Hc Hd]. apply negb_true_iff in Hc, Hd.
  rewrite (lstrip_no_lead (c :: t')) by (by intros ?? [= <- _]).
  rewrite (lstrip_no_lead (reverse (c :: t'))); [apply reverse_involutive|].
  intros c' t'' Hr. enough (Some c' = Some d) as [= ->] by done.
  by rewrite <- E, <- head_reverse, Hr.
Qed.

(** [s.strip().strip() == s.strip()]: stripping twice changes nothing. *)
Theorem strip_idempotent s : strip (strip s) = strip s.
Proof.
  apply strip_edges_id, strip_edges.
Qed.

(** What holds of every character of a string holds of every
    character of its stripped form. *)
Lemma strip_Forall (P : Z -> Prop) s : Forall P s -> Forall P (strip s).
Proof.
  destruct (strip_split s) as (a & b & Hs & _). rewrite Hs at 1.
  by intros [_ [? _]%Forall_app]%Forall_app.
Qed.

(** ** Properties of [splitlines] and [join] *)

Abbreviation no_break := (Forall (fun c => is_linebreak c = false)).

Lemma lstrip_snoc x c : isspace c = false -> lstrip (x ++ [c]) = lstrip x ++ [c].
Proof. intros Hc. induction x as [|d x IH]; simpl; [by rewrite Hc|]. by destruct (isspace d). Qed.

(** [rstrip] keeps a first character that is not whitespace. *)
Lemma rstrip_cons c l : isspace c = false -> rstrip (c :: l) = c :: rstrip l.
Proof. intros Hc. unfold rstrip. by rewrite reverse_cons, lstrip_snoc, reverse_snoc. Qed.

Lemma splitlines_nonempty s : s <> [] -> splitlines s = splitlines_go [] s.
Proof. by destruct s. Qed.

Lemma splitlines_go_no_break_prefix cur l r :
  no_break l -> splitlines_go cur (l ++ r) = splitlines_go (reverse l ++ cur) r.
Proof.
  intros Hl. revert cur. induction Hl as [|c l Hc _ IH]; intros cur; [done|].
  simpl. rewrite Hc, IH, reverse_cons. by rewrite <- app_assoc.
Qed.

Lemma splitlines_go_lf cur r : splitlines_go cur (10 :: r) = reverse cur :: splitlines r.
Proof. by destruct r. Qed.

Lemma splitlines_line_lf l r :
  no_break l -> splitlines (l ++ 10 :: r) = l :: splitlines r.
Proof.
  intros Hl. rewrite splitlines_nonempty by (by destruct l).
  rewrite splitlines_go_no_break_prefix, app_nil_r, splitlines_go_lf by done.
  by rewrite reverse_involutive.
Qed.

Lemma splitlines_line l : no_break l -> l <> [] -> splitlines l = [l].
Proof.
  intros Hl Hne. rewrite splitlines_nonempty by done.
  rewrite <- (app_nil_r l) at 1.
  rewrite splitlines_go_no_break_prefix by done. simpl.
  by rewrite app_nil_r, reverse_involutive.
Qed.

Lemma join_cons_cons sep x y ys : join sep (x :: y :: ys) = x ++ sep ++ join sep (y :: ys).
Proof. simpl. by rewrite !app_assoc. Qed.

(** [splitlines] gives back the lines that ["\n".join] glued, provided
    no line holds a line boundary and the last line is not empty
    (["a\n".splitlines()] is [["a"]], not [["a", ""]]). *)
Theorem splitlines_join ls :
  Forall no_break ls -> last ls <> Some [] -> splitlines (join [10] ls) = ls.
Proof.
  induction 1 as [|x ls Hx Hls IH]; [done|].
  destruct ls as [|y ys].
  - intros Hlast. simpl. rewrite app_nil_r.
    apply splitlines_line; [done|]. intros ->. by apply Hlast.
  - intros Hlast. rewrite join_cons_cons. simpl.
    rewrite splitlines_line_lf by done. f_equal. by apply IH.
Qed.

(** No line produced by [splitlines] contains a line boundary. *)
Lemma splitlines_go_no_break s : forall cur,
  no_break cur -> Forall no_break (splitlines_go cur s).
Proof.
  induction s as [s IH] using list_len_ind. intros cur Hcur.
  destruct s as [|c s']; simpl.
  - constructor; [by apply Forall_reverse_iff|constructor].
  - destruct (is_linebreak c) eqn:Ec.
    + constructor; [by apply Forall_reverse_iff|].
      destruct s' as [|d s'']; [constructor|].
      destruct ((c =? 13) && (d =? 10)); [destruct s''; [constructor|]|];
        apply IH; simpl; auto with lia.
    + apply IH; simpl; auto with lia.
Qed.

Theorem splitlines_no_break s : Forall no_break (splitlines s).
Proof. destruct s; [constructor|]. by apply splitlines_go_no_break. Qed.

(** ** What [splitlines] keeps *)

Lemma splitlines_go_Forall (P : Z -> Prop) s : forall cur,
  Forall (Forall P) (splitlines_go cur s)
  <-> Forall P cur /\ Forall (fun c => is_linebreak c = false -> P c) s.
Proof.
  induction s as [s IH] using list_len_ind. intros cur.
  destruct s as [|c s']; simpl.
  - rewrite Forall_cons, Forall_reverse_iff, !Forall_nil. intuition.
  - rewrite Forall_cons. destruct (is_linebreak c) eqn:Ec.
    + rewrite Forall_cons, Forall_reverse_iff.
      destruct s' as [|d s'']; [rewrite !Forall_nil; intuition (discriminate || auto)|].
      destruct ((c =? 13) && (d =? 10)) eqn:Ecd.
      * apply andb_prop in Ecd as [_ Hd]. apply Z.eqb_eq in Hd as ->.
        rewrite (Forall_cons _ 10). change (is_linebreak 10) with true.
        destruct s'' as [|e s3];
          [rewrite !Forall_nil; intuition (discriminate || auto)|].
        rewrite IH by (simpl; lia). intuition (discriminate || auto).
      * rewrite IH by (simpl; lia). intuition (discriminate || auto).
    + rewrite IH by (simpl; lia). rewrite Forall_cons. intuition (discriminate || auto).
Qed.

(** The lines of [s] satisfy [P] everywhere iff every character of [s]
    that is not a line boundary does. *)
Lemma splitlines_Forall (P : Z -> Prop) s :
  Forall (Forall P) (splitlines s) <-> Forall (fun c => is_linebreak c = false -> P c) s.
Proof.
  destruct s as [|c s']; [split; constructor|].
  unfold splitlines. rewrite splitlines_go_Forall. intuition.
Qed.

Lemma linebreak_isspace c : is_linebreak c = true -> isspace c = true.
Proof. unfold is_linebreak, isspace. repeat zcase.
Qed.

Lemma strip_nil_iff l : strip l = [] <-> all_space l.
Proof.
  split.
  - intros H. destruct (strip_split l) as (a & b & Hl & Ha & Hb).
    rewrite H in Hl. simpl in Hl. rewrite Hl. by apply Forall_app.
  - intros H. unfold strip. by rewrite lstrip_all_space.
Qed.


Lemma join_app sep xs ys : xs <> [] -> ys <> [] ->
  join sep (xs ++ ys) = join sep xs ++ sep ++ join sep ys.
Proof.
  destruct xs as [|x xs], ys as [|y ys]; intros; try done. simpl.
  rewrite map_app, concat_app. simpl. by rewrite !app_assoc.
Qed.

End PyStr.
