(* ===== verification/Utf8.v ===== *)
(** * Utf8: [str.encode('utf-8')] and [bytes.decode('utf-8')]

    src/app.py decodes an uploaded text file with
    [upload_file.read().decode("utf-8")] (line 26) and encodes the CSV
    it offers for download with [.encode('utf-8')] (line 97).  Both are
    CPython's strict codec: [encode] follows [ucs4lib_utf8_encoder]
    (the byte of each range built with [|], [>>] and [&], a surrogate
    raising [UnicodeEncodeError] with CPython's message, which names
    the character or the range of the run of surrogates at its
    position); [decode] follows
    [ucs1lib_utf8_decode] (the code point assembled as
    [(ch << 6) + ch2 - ((0xC0 << 6) + 0x80)] and its 3- and 4-byte
    analogues, every ill-formed sequence raising [UnicodeDecodeError]).
    Bytes are [Z]s in [0, 256).  [decode_at] carries the byte offset,
    so that an error is CPython's [UnicodeDecodeError] message: the
    byte ([0x%02x]) or the byte range, the position ([%zd]) and the
    reason, with the ranges [unicode_decode_utf8] gives each case. *)

From S2P Require Import Prelude.

Module Utf8.
Local Open Scope pfa_scope.
Local Open Scope Z_scope.

Definition is_surrogate (c : Z) : bool := (55296 <=? c) && (c <=? 57343).

(** The byte sequence of one code point, or [None] for a surrogate,
    which goes to the error handler. *)
Definition encode_char (c : Z) : option (list Z) :=
  if c <? 128 then Some [c]
  else if c <? 2048 then
    Some [Z.lor 192 (Z.shiftr c 6); Z.lor 128 (Z.land c 63)]
  else if is_surrogate c then None
  else if c <? 65536 then
    Some [Z.lor 224 (Z.shiftr c 12); Z.lor 128 (Z.land (Z.shiftr c 6) 63);
          Z.lor 128 (Z.land c 63)]
  else
    Some [Z.lor 240 (Z.shiftr c 18); Z.lor 128 (Z.land (Z.shiftr c 12) 63);
          Z.lor 128 (Z.land (Z.shiftr c 6) 63); Z.lor 128 (Z.land c 63)].

(** The number of surrogates from the start of [s]: the error handler
    covers the whole run ([endpos] advances over them). *)
Fixpoint surrogate_run (s : pystr) : Z :=
  match s with
  | c :: s' => if is_surrogate c then 1 + surrogate_run s' else 0
  | [] => 0
  end.

(** [%zd] and [0x%02x] of [PyUnicode_FromFormat]. *)
Fixpoint uint_digits (u : Decimal.uint) : pystr :=
  match u with
  | Decimal.Nil => []
  | Decimal.D0 u => 48 :: uint_digits u | Decimal.D1 u => 49 :: uint_digits u
  | Decimal.D2 u => 50 :: uint_digits u | Decimal.D3 u => 51 :: uint_digits u
  | Decimal.D4 u => 52 :: uint_digits u | Decimal.D5 u => 53 :: uint_digits u
  | Decimal.D6 u => 54 :: uint_digits u | Decimal.D7 u => 55 :: uint_digits u
  | Decimal.D8 u => 56 :: uint_digits u | Decimal.D9 u => 57 :: uint_digits u
  end.

Definition fmt_zd (n : Z) : pystr := uint_digits (N.to_uint (Z.to_N n)).

Definition hex_digit (d : Z) : Z := if d <? 10 then 48 + d else 87 + d.

Definition fmt_02x (b : Z) : pystr := [hex_digit (b / 16); hex_digit (b mod 16)].

(** [0x%04x]-style digits of a code point below U+10000. *)
Definition fmt_04x (c : Z) : pystr := fmt_02x (c / 256) ++ fmt_02x (c mod 256).

(** [UnicodeEncodeError_str]: one character is named as [\\u%04x]
    (a surrogate is below U+10000), several by their range. *)
Definition encode_error (start stop c : Z) : exn :=
  Exn (lit "UnicodeEncodeError")
    (if stop =? start + 1 then
       lit "'utf-8' codec can't encode character '\u" ++ fmt_04x c ++ lit "' in position "
         ++ fmt_zd start ++ lit ": surrogates not allowed"
     else
       lit "'utf-8' codec can't encode characters in position " ++ fmt_zd start ++ lit "-"
         ++ fmt_zd (stop - 1) ++ lit ": surrogates not allowed").

(** [ucs4lib_utf8_encoder] from character offset [pos], with
    [errors="strict"]: the first surrogate raises, its error covering
    the run of surrogates that starts there. *)
Fixpoint encode_at (pos : Z) (s : pystr) : result (list Z) :=
  match s with
  | [] => Ok []
  | c :: s' =>
      match encode_char c with
      | Some bs => let* rest := encode_at (pos + 1) s' in Ok (bs ++ rest)
      | None => Raise (encode_error pos (pos + surrogate_run s) c)
      end
  end.

(** [s.encode('utf-8')]. *)
Definition encode (s : pystr) : result (list Z) := encode_at 0 s.

(** [UnicodeDecodeError_str]: the error covers the [n] bytes from
    position [start]; one byte is named with its value, several by
    their range. *)
Definition decode_error (start n b0 : Z) (reason : string) : result pystr :=
  Raise (Exn (lit "UnicodeDecodeError")
    (if n =? 1 then
       lit "'utf-8' codec can't decode byte 0x" ++ fmt_02x b0 ++ lit " in position "
         ++ fmt_zd start ++ lit ": " ++ lit reason
     else
       lit "'utf-8' codec can't decode bytes in position " ++ fmt_zd start ++ lit "-"
         ++ fmt_zd (start + n - 1) ++ lit ": " ++ lit reason)).

Definition is_cont (b : Z) : bool := (128 <=? b) && (b <=? 191).

(** The range of the second byte of a 3- or 4-byte sequence, which
    excludes overlong forms, surrogates and code points above
    U+10FFFF. *)
Definition second_ok (b0 b1 : Z) : bool :=
  if b0 =? 224 then (160 <=? b1) && (b1 <=? 191)
  else if b0 =? 237 then (128 <=? b1) && (b1 <=? 159)
  else if b0 =? 240 then (144 <=? b1) && (b1 <=? 191)
  else if b0 =? 244 then (128 <=? b1) && (b1 <=? 143)
  else is_cont b1.

Definition cons_ok (c : Z) (r : result pystr) : result pystr :=
  let* s := r in Ok (c :: s).

Definition invalid_start := "invalid start byte"%string.
Definition invalid_cont := "invalid continuation byte"%string.
Definition end_of_data := "unexpected end of data"%string.

(** [utf8_decode] of Objects/stringlib/codecs.h from offset [pos], with
    the error ranges [unicode_decode_utf8] gives its exception: an
    invalid lead byte ([InvalidStart]) and an invalid [k]-th byte of a
    sequence ([InvalidContinuation1-3]) cover the [k - 1] bytes before
    it, or the lead byte alone; a sequence cut short by the end of the
    data covers the bytes left.  A truncated sequence whose bytes are
    already invalid is an invalid continuation, as in CPython. *)
Fixpoint decode_at (pos : Z) (bs : list Z) : result pystr :=
  match bs with
  | [] => Ok []
  | b0 :: rest =>
      let err n reason := decode_error pos n b0 reason in
      if b0 <? 128 then cons_ok b0 (decode_at (pos + 1) rest)
      else if b0 <? 194 then err 1 invalid_start
      else if b0 <? 224 then
        match rest with
        | [] => err 1 end_of_data
        | b1 :: rest' =>
            if is_cont b1 then
              cons_ok (Z.shiftl b0 6 + b1 - (Z.shiftl 192 6 + 128)) (decode_at (pos + 2) rest')
            else err 1 invalid_cont
        end
      else if b0 <? 240 then
        match rest with
        | [] => err 1 end_of_data
        | [b1] => if second_ok b0 b1 then err 2 end_of_data else err 1 invalid_cont
        | b1 :: b2 :: rest' =>
            if negb (second_ok b0 b1) then err 1 invalid_cont
            else if negb (is_cont b2) then err 2 invalid_cont
            else cons_ok (Z.shiftl b0 12 + Z.shiftl b1 6 + b2
                          - (Z.shiftl 224 12 + Z.shiftl 128 6 + 128)) (decode_at (pos + 3) rest')
        end
      else if b0 <? 245 then
        match rest with
        | [] => err 1 end_of_data
        | [b1] => if second_ok b0 b1 then err 2 end_of_data else err 1 invalid_cont
        | [b1; b2] =>
            if negb (second_ok b0 b1) then err 1 invalid_cont
            else if negb (is_cont b2) then err 2 invalid_cont
            else err 3 end_of_data
        | b1 :: b2 :: b3 :: rest' =>
            if negb (second_ok b0 b1) then err 1 invalid_cont
            else if negb (is_cont b2) then err 2 invalid_cont
            else if negb (is_cont b3) then err 3 invalid_cont
            else cons_ok (Z.shiftl b0 18 + Z.shiftl b1 12 + Z.shiftl b2 6 + b3
                          - (Z.shiftl 240 18 + Z.shiftl 128 12 + Z.shiftl 128 6 + 128))
                         (decode_at (pos + 4) rest')
        end
      else err 1 invalid_start
  end.

(** [b.decode('utf-8')]. *)
Definition decode (bs : list Z) : result pystr := decode_at 0 bs.

(** A code point a [str] can hold and UTF-8 can encode: a Unicode
    scalar value. *)
Definition scalar (c : Z) : Prop := 0 <= c <= 1114111 /\ is_surrogate c = false.

Definition is_byte (b : Z) : Prop := 0 <= b < 256.

#[export] Instance scalar_dec c : Decision (scalar c) := _.
#[export] Instance is_byte_dec b : Decision (is_byte b) := _.

(** ** The encoder's bytes as arithmetic *)

Lemma land63 x : Z.land x 63 = x mod 64.
Proof. change 63 with (Z.ones 6). by rewrite Z.land_ones. Qed.

Lemma lor_const m k x :
  0 <= k -> 0 <= m -> m mod 2 ^ k = 0 -> 0 <= x < 2 ^ k -> Z.lor m x = m + x.
Proof.
  intros Hk Hm Hmod Hx.
  assert (Hpos : 0 < 2 ^ k) by (apply Z.pow_pos_nonneg; lia).
  rewrite (Z.div_mod m (2 ^ k)), Hmod, Z.add_0_r, (Z.mul_comm (2 ^ k)) by lia.
  apply lor_mul_pow2_small; [apply Z.div_pos|..]; lia.
Qed.

Ltac byte_arith :=
  rewrite ?Z.shiftr_div_pow2, ?land63 by lia;
  try change (2 ^ 6) with 64; try change (2 ^ 12) with 4096;
  try change (2 ^ 18) with 262144;
  repeat match goal with
  | |- context [Z.lor ?m ?x] =>
      let k := match m with 128 => constr:(6) | 192 => constr:(6)
                          | 224 => constr:(4) | 240 => constr:(3) end in
      rewrite (lor_const m k x) by
        (simpl; Z.to_euclidean_division_equations; lia)
  end.

(** The four cases of [encode_char] on a scalar value. *)
Lemma encode_char_bytes c : scalar c ->
  encode_char c =
  Some (if c <? 128 then [c]
      else if c <? 2048 then [192 + c / 64; 128 + c mod 64]
      else if c <? 65536 then [224 + c / 4096; 128 + (c / 64) mod 64; 128 + c mod 64]
      else [240 + c / 262144; 128 + (c / 4096) mod 64; 128 + (c / 64) mod 64;
            128 + c mod 64]).
Proof.
  intros [Hc Hs]. unfold encode_char. rewrite Hs.
  repeat zcase; byte_arith; repeat f_equal; lia.
Qed.

(** ** One step of the decoder on each well-formed sequence *)

Lemma decode_1 pos b0 rest : 0 <= b0 < 128 ->
  decode_at pos (b0 :: rest) = cons_ok b0 (decode_at (pos + 1) rest).
Proof. intros H. simpl. by zcase. Qed.

Lemma decode_2 pos b0 b1 rest :
  194 <= b0 <= 223 -> 128 <= b1 <= 191 ->
  decode_at pos (b0 :: b1 :: rest) = cons_ok (b0 * 64 + b1 - 12416) (decode_at (pos + 2) rest).
Proof.
  intros H0 H1. simpl. unfold is_cont. repeat zcase.
  rewrite Z.shiftl_mul_pow2 by lia. do 2 f_equal; lia.
Qed.

Lemma decode_3 pos b0 b1 b2 rest :
  224 <= b0 <= 239 -> second_ok b0 b1 = true -> 128 <= b2 <= 191 ->
  decode_at pos (b0 :: b1 :: b2 :: rest)
  = cons_ok (b0 * 4096 + b1 * 64 + b2 - 925824) (decode_at (pos + 3) rest).
Proof.
  intros H0 H1 H2. simpl. rewrite H1. unfold is_cont. repeat zcase.
  rewrite !Z.shiftl_mul_pow2 by lia. do 2 f_equal; lia.
Qed.

Lemma decode_4 pos b0 b1 b2 b3 rest :
  240 <= b0 <= 244 -> second_ok b0 b1 = true -> 128 <= b2 <= 191 -> 128 <= b3 <= 191 ->
  decode_at pos (b0 :: b1 :: b2 :: b3 :: rest)
  = cons_ok (b0 * 262144 + b1 * 4096 + b2 * 64 + b3 - 63447168) (decode_at (pos + 4) rest).
Proof.
  intros H0 H1 H2 H3. simpl. rewrite H1. unfold is_cont. repeat zcase.
  rewrite !Z.shiftl_mul_pow2 by lia. do 2 f_equal; lia.
Qed.

(** A code point split into base-64 digits, so that the byte
    arithmetic becomes linear. *)
Lemma digits64 c : 0 <= c ->
  c = (c / 262144) * 262144 + ((c / 4096) mod 64) * 4096 + ((c / 64) mod 64) * 64
      + c mod 64 /\ c / 4096 = (c / 262144) * 64 + (c / 4096) mod 64
  /\ c / 64 = (c / 4096) * 64 + (c / 64) mod 64
  /\ 0 <= (c / 4096) mod 64 < 64 /\ 0 <= (c / 64) mod 64 < 64 /\ 0 <= c mod 64 < 64
  /\ 0 <= c / 262144.
Proof. intros Hc. Z.to_euclidean_division_equations. lia. Qed.

Lemma is_surrogate_false c : is_surrogate c = false <-> c < 55296 \/ 57343 < c.
Proof. unfold is_surrogate. rewrite andb_false_iff, !Z.leb_gt. lia. Qed.

Ltac second_ok_tac := unfold second_ok, is_cont; repeat zcase.

Lemma decode_encode_char pos c bs rest : scalar c -> encode_char c = Some bs ->
  decode_at pos (bs ++ rest) = cons_ok c (decode_at (pos + Z.of_nat (length bs)) rest).
Proof.
  intros Hc He. rewrite encode_char_bytes in He by done. injection He as <-.
  destruct Hc as [Hc Hs]. apply is_surrogate_false in Hs.
  destruct (digits64 c) as (E & E4 & E6 & D2 & D1 & D0 & D3); [lia|].
  set (m2 := (c / 4096) mod 64) in *. set (m1 := (c / 64) mod 64) in *.
  set (m0 := c mod 64) in *. set (q3 := c / 262144) in *.
  clearbody m2 m1 m0 q3. rewrite E6, E4.
  destruct (Z.ltb_spec c 128); cbv iota; cbn [app length]; [apply decode_1; lia|].
  destruct (Z.ltb_spec c 2048); cbv iota; cbn [app length];
    [rewrite decode_2 by lia; f_equal; lia|].
  destruct (Z.ltb_spec c 65536); cbv iota; cbn [app length].
  - rewrite decode_3 by (lia || second_ok_tac). f_equal; lia.
  - rewrite decode_4 by (lia || second_ok_tac). f_equal; lia.
Qed.

(** ** Round trip *)

Lemma cons_ok_inv c r s : cons_ok c r = Ok s -> exists s', r = Ok s' /\ s = c :: s'.
Proof. destruct r; simpl; [intros [= <-]; eauto|discriminate]. Qed.

(** [s.encode('utf-8')] succeeds on every string of scalar
    values, and decoding its bytes gives [s] back. *)
Lemma decode_at_encode s pos q :
  Forall scalar s -> exists bs, encode_at q s = Ok bs /\ decode_at pos bs = Ok s.
Proof.
  intros Hs. revert pos q. induction Hs as [|c s Hc _ IH]; intros pos q; [by exists []|].
  destruct (encode_char c) as [bc|] eqn:Ec;
    [|by rewrite encode_char_bytes in Ec].
  destruct (IH (pos + Z.of_nat (length bc)) (q + 1)) as (bs & Henc & Hdec).
  exists (bc ++ bs). simpl. rewrite Ec, Henc. split; [done|].
  by rewrite (decode_encode_char pos c bc bs Hc Ec), Hdec.
Qed.

Theorem utf8_roundtrip s :
  Forall scalar s -> exists bs, encode s = Ok bs /\ decode bs = Ok s.
Proof. apply (fun H => decode_at_encode s 0 0 H). Qed.

(** What one step of [decode] accepted. *)
Tactic Notation "inv_fin" int(n) :=
  do n eexists; split_and!; [reflexivity|..];
  first [lia | eassumption
        | f_equal; rewrite ?Z.shiftl_mul_pow2 by lia; simpl Z.pow; lia].

Lemma decode_cons_inv pos b0 rest s : decode_at pos (b0 :: rest) = Ok s ->
  (b0 < 128 /\ exists s', decode_at (pos + 1) rest = Ok s' /\ s = b0 :: s') \/
  (exists b1 rest' s', rest = b1 :: rest' /\ 194 <= b0 <= 223 /\ is_cont b1 = true
     /\ decode_at (pos + 2) rest' = Ok s' /\ s = (b0 * 64 + b1 - 12416) :: s') \/
  (exists b1 b2 rest' s', rest = b1 :: b2 :: rest' /\ 224 <= b0 <= 239
     /\ second_ok b0 b1 = true /\ is_cont b2 = true /\ decode_at (pos + 3) rest' = Ok s'
     /\ s = (b0 * 4096 + b1 * 64 + b2 - 925824) :: s') \/
  (exists b1 b2 b3 rest' s', rest = b1 :: b2 :: b3 :: rest' /\ 240 <= b0 <= 244
     /\ second_ok b0 b1 = true /\ is_cont b2 = true /\ is_cont b3 = true
     /\ decode_at (pos + 4) rest' = Ok s'
     /\ s = (b0 * 262144 + b1 * 4096 + b2 * 64 + b3 - 63447168) :: s').
Proof.
  simpl. repeat zcase; intros Hd;
    [apply cons_ok_inv in Hd as (s' & Hs' & ->); left; eauto|..];
    destruct rest as [|b1 [|b2 [|b3 rest']]]; try discriminate Hd;
    repeat match type of Hd with
    | (if ?b then _ else _) = _ => destruct b eqn:?; try discriminate Hd
    end;
    repeat match goal with H : negb _ = false |- _ => apply negb_false_iff in H end;
    repeat match goal with H : _ && _ = true |- _ => apply andb_prop in H as [? ?] end;
    apply cons_ok_inv in Hd as (s' & Hs' & ->); right;
    first [left; inv_fin 3 | right; left; inv_fin 4 | right; right; inv_fin 5].
Qed.

Lemma is_cont_spec b : is_cont b = true <-> 128 <= b <= 191.
Proof. unfold is_cont. rewrite andb_true_iff, !Z.leb_le. lia. Qed.

Lemma second_ok_spec b0 b1 : second_ok b0 b1 = true ->
  128 <= b1 <= 191 /\ (b0 = 224 -> 160 <= b1) /\ (b0 = 237 -> b1 <= 159)
  /\ (b0 = 240 -> 144 <= b1) /\ (b0 = 244 -> b1 <= 143).
Proof. unfold second_ok, is_cont. repeat zcase. Qed.

(** As for the decoder, a successful encoding does not depend on the
    offset. *)
Lemma encode_at_ok_pos s : forall q q' bs, encode_at q s = Ok bs -> encode_at q' s = Ok bs.
Proof.
  induction s as [|c s IH]; intros q q' bs He; [done|]. simpl in *.
  destruct (encode_char c); [|discriminate].
  destruct (encode_at (q + 1) s) eqn:E; [|discriminate].
  by rewrite (IH _ _ _ E).
Qed.

Lemma encode_cons c s bc bs :
  encode_char c = Some bc -> encode s = Ok bs -> encode (c :: s) = Ok (bc ++ bs).
Proof. intros Hc Hs. unfold encode. simpl. by rewrite Hc, (encode_at_ok_pos _ _ _ _ Hs). Qed.

Ltac prefix_of l r :=
  lazymatch l with
  | r => constr:(@nil Z)
  | ?x :: ?l' => let p := prefix_of l' r in constr:(x :: p)
  end.

(** The decoder is strict: the bytes it accepts are exactly the
    encoding of the string it returns (no overlong form, no surrogate,
    nothing above U+10FFFF), and that string holds scalar values
    only. *)
Lemma decode_at_canonical bs pos s :
  Forall is_byte bs -> decode_at pos bs = Ok s -> Forall scalar s /\ encode s = Ok bs.
Proof.
  revert pos s. induction bs as [bs IH] using list_len_ind. intros pos s Hb Hd.
  destruct bs as [|b0 rest]; [by injection Hd as <-|].
  apply Forall_cons in Hb as [Hb0 Hrest]. unfold is_byte in Hb0.
  apply decode_cons_inv in Hd
    as [(H0 & s' & Hs' & ->)
       |[(b1 & rest' & s' & -> & H0 & H1 & Hs' & ->)
       |[(b1 & b2 & rest' & s' & -> & H0 & H1 & H2 & Hs' & ->)
       |(b1 & b2 & b3 & rest' & s' & -> & H0 & H1 & H2 & H3 & Hs' & ->)]]];
    repeat match goal with
    | H : is_cont _ = true |- _ => apply is_cont_spec in H
    | H : second_ok _ _ = true |- _ => apply second_ok_spec in H
    end;
    repeat match goal with H : Forall _ (_ :: _) |- _ => apply Forall_cons in H as [? ?] end;
    unfold is_byte in *;
    (lazymatch type of Hs' with decode_at _ ?r = _ =>
       destruct (IH r ltac:(simpl; lia) _ _ ltac:(assumption) Hs') as [Hsc Henc] end);
    (split; [constructor; [|done]; split; [lia|apply is_surrogate_false; lia]|]);
    lazymatch goal with
    | |- encode (?c :: ?s) = Ok ?full =>
        lazymatch type of Henc with
        | encode _ = Ok ?r => let bc := prefix_of full r in
                              apply (encode_cons c s bc r); [|exact Henc]
        end
    end;
    (rewrite encode_char_bytes; [|split; [lia|apply is_surrogate_false; lia]]);
    repeat zcase; repeat f_equal; Z.to_euclidean_division_equations; lia.
Qed.

Theorem decode_canonical bs s :
  Forall is_byte bs -> decode bs = Ok s -> Forall scalar s /\ encode s = Ok bs.
Proof. apply decode_at_canonical. Qed.


(** A successful decoding does not depend on the offset, which only
    the error messages mention. *)
Lemma decode_at_ok_pos bs : forall pos pos' s, decode_at pos bs = Ok s -> decode_at pos' bs = Ok s.
Proof.
  induction bs as [bs IH] using list_len_ind. intros pos pos' s Hd.
  destruct bs as [|b0 rest]; [done|]. simpl in *.
  repeat match goal with
  | H : context [if ?b then _ else _] |- _ => destruct b
  | H : context [match ?l with [] => _ | _ :: _ => _ end] |- _ => destruct l
  | H : decode_error _ _ _ _ = Ok _ |- _ => discriminate H
  | H : cons_ok ?c (decode_at _ ?r) = Ok _ |- cons_ok _ (decode_at ?p' _) = _ =>
      apply cons_ok_inv in H as (? & Hr & ->);
      by rewrite (IH r ltac:(simpl; lia) _ p' _ Hr)
  end.
Qed.

(** A leading byte order mark decodes to U+FEFF in front of the rest. *)
Lemma decode_bom bs s : decode bs = Ok s -> decode ([239; 187; 191] ++ bs) = Ok (0xFEFF :: s).
Proof.
  intros Hd. unfold decode. simpl app. rewrite decode_3 by (done || lia).
  by rewrite (decode_at_ok_pos bs 0 (0 + 3) s Hd).
Qed.

(** ** Where the decoder fails *)

Lemma cons_ok_raise c r e : cons_ok c r = Raise e -> r = Raise e.
Proof. by destruct r. Qed.

Definition decode_reasons : list string := [invalid_start; invalid_cont; end_of_data].

(** The error a decoder step raises at a lead byte [b0] with [rest]
    after it: [n] bytes from it, the bytes left when the data ends. *)
Definition step_error (pos : Z) (b0 : Z) (rest : list Z) (e : exn) : Prop :=
  exists n reason, Raise e = decode_error pos n b0 reason /\ 1 <= n <= 3 /\
    (Z.to_nat n <= S (length rest))%nat /\
    In reason decode_reasons /\ (reason = end_of_data -> Z.to_nat n = S (length rest)).

Ltac step_ok Hd mid lem :=
  right; apply cons_ok_raise in Hd; eexists _, mid, _; split_and!;
  [ reflexivity
  | rewrite <- Hd; f_equal; simpl; lia
  | intros x; cbn [app length]; rewrite lem; [f_equal; f_equal; lia|..]; (lia || done) ].

(** One step of the decoder at a lead byte: either it reads a
    well-formed sequence [b0 :: mid] whatever follows, or it raises a
    [step_error] there. *)
Lemma decode_at_step pos b0 rest e :
  Forall is_byte (b0 :: rest) -> decode_at pos (b0 :: rest) = Raise e ->
  step_error pos b0 rest e \/
  exists c mid rest', rest = mid ++ rest' /\
    decode_at (pos + 1 + Z.of_nat (length mid)) rest' = Raise e /\
    forall x, decode_at pos (b0 :: mid ++ x) = cons_ok c (decode_at (pos + 1 + Z.of_nat (length mid)) x).
Proof.
  intros Hb Hd. apply Forall_cons in Hb as [Hb0 _]. unfold is_byte in Hb0.
  destruct (Z.ltb_spec b0 128).
  { right. exists b0, [], rest. rewrite decode_1 in Hd by lia. apply cons_ok_raise in Hd.
    cbn [length Z.of_nat app]. rewrite Z.add_0_r. split_and!; [done..|].
    intros x. by rewrite decode_1 by lia. }
  cbn [decode_at] in Hd. repeat zcase_in Hd;
    destruct rest as [|b1 [|b2 [|b3 r]]]; cbv zeta in Hd;
    repeat match type of Hd with (if ?b then _ else _) = _ => destruct b eqn:? end;
    repeat match goal with H : negb _ = false |- _ => apply negb_false_iff in H end;
    repeat match goal with H : is_cont _ = true |- _ => apply is_cont_spec in H end;
    first
    [ left; unfold step_error; eexists _, _; split; [exact (eq_sym Hd)|];
      split_and!; simpl; first [lia | tauto | intros Hr; (discriminate Hr || lia)]
    | step_ok Hd [b1] decode_2 | step_ok Hd [b1; b2] decode_3 | step_ok Hd [b1; b2; b3] decode_4 ].
Qed.

Lemma decode_at_error bs pos e :
  Forall is_byte bs -> decode_at pos bs = Raise e ->
  exists p b q s, bs = p ++ b :: q /\ decode_at pos p = Ok s /\
    step_error (pos + Z.of_nat (length p)) b q e.
Proof.
  revert pos. induction bs as [bs IH] using list_len_ind. intros pos Hb Hd.
  destruct bs as [|b0 rest]; [discriminate|].
  destruct (decode_at_step pos b0 rest e Hb Hd) as [Herr|(c & mid & rest' & -> & Hd' & Hx)].
  { exists [], b0, rest, []. by rewrite Z.add_0_r. }
  apply Forall_cons in Hb as [_ Hb]. apply Forall_app in Hb as [_ Hb].
  destruct (IH rest' ltac:(simpl; rewrite length_app; lia) _ Hb Hd') as (p & b & q & s & -> & Hp & Hs).
  exists (b0 :: mid ++ p), b, q, (c :: s). split_and!.
  - simpl. by rewrite app_assoc.
  - by rewrite Hx, Hp.
  - cbn [length]. rewrite length_app.
    replace (pos + Z.of_nat (S (length mid + length p)))
      with (pos + 1 + Z.of_nat (length mid) + Z.of_nat (length p)) by lia.
    exact Hs.
Qed.

(** C33: Every error of [b.decode('utf-8')] is CPython's
    [UnicodeDecodeError] at the end of the longest well-formed prefix:
    the bytes before the reported position decode, and the message
    names that position, with the lead byte alone or the range of at
    most three bytes of the ill-formed sequence, for one of the three
    reasons; a sequence cut short covers the bytes left. *)
Theorem decode_error_position bs e :
  Forall is_byte bs -> decode bs = Raise e ->
  exists p b q s, bs = p ++ b :: q /\ decode p = Ok s /\ step_error (Z.of_nat (length p)) b q e.
Proof. intros Hb Hd. by apply (decode_at_error bs 0 e). Qed.




(** C16: [bytes.decode('utf-8')] and [str.encode('utf-8')] are inverse
    bijections between the byte strings the decoder accepts and the
    strings of Unicode scalar values: a byte string decodes to [s]
    exactly when [s] holds scalar values only and encodes to it. *)
Theorem utf8_codec_inverse bs s :
  Forall is_byte bs -> decode bs = Ok s <-> Forall scalar s /\ encode s = Ok bs.
Proof.
  intros Hb. split; [by apply decode_canonical|].
  intros [Hs He]. destruct (utf8_roundtrip s Hs) as (bs' & He' & Hd). congruence.
Qed.



(** ** Concrete instances *)

(** ["é"] is U+00E9, encoded as the two bytes C3 A9. *)
Lemma utf8_codec_inverse_witness :
  decode [195; 169] = Ok [233] <-> Forall scalar [233] /\ encode [233] = Ok [195; 169].
Proof. apply utf8_codec_inverse. apply (bool_decide_unpack _). vm_compute. reflexivity. Defined.


(** A Latin-1 "café" (E9 for é) read as UTF-8: CPython's message
    "can't decode byte 0xe9 in position 3: unexpected end of data". *)
Lemma decode_error_position_witness :
  exists p b q s, lit "caf" ++ [233] = p ++ b :: q /\ decode p = Ok s /\
    step_error (Z.of_nat (length p)) b q
      (Exn (lit "UnicodeDecodeError")
         (lit "'utf-8' codec can't decode byte 0xe9 in position 3: unexpected end of data")).
Proof.
  apply decode_error_position; [apply (bool_decide_unpack _)|]; vm_compute; reflexivity.
Defined.

End Utf8.
