(* ===== verification/Sentiment.v ===== *)
(** * Sentiment: [analyze_sentiment] (src/app.py, lines 33-41)

    The TextBlob polarity score is a black box behind the class
    [Polarity]: one operation, text to a number in [-1, 1].  Python
    floats are IEEE doubles, and every finite double is a rational, so
    scores are [Q]; the literals [0.1] and [-0.1] of the source are the
    doubles they denote, [py_0_1] = 3602879701896397 / 2^55 and its
    negation, compared exactly as CPython compares floats. *)

From S2P Require Import Prelude PyStr.
From Stdlib Require Import QArith Qminmax Lqa.

Module Sentiment.

(** The three strings [analyze_sentiment] returns. *)
Inductive label := Positive | Neutral | Negative.

#[export] Instance label_eq_dec : EqDecision label.
Proof. solve_decision. Defined.

Definition label_str (l : label) : pystr :=
  match l with
  | Positive => lit "Positive"
  | Neutral => lit "Neutral"
  | Negative => lit "Negative"
  end.

(** The interface of [TextBlob(feedback).sentiment.polarity]. *)
Class Polarity := {
  polarity : pystr -> Q;
  polarity_range : forall s, -1 <= polarity s <= 1
}.

(** The double nearest to the decimal literal [0.1]. *)
Definition py_0_1 : Q := 3602879701896397 # 36028797018963968.

(** Float comparisons [x > y] and [x < y]. *)
Definition py_gt (x y : Q) : bool := negb (Qle_bool x y).
Definition py_lt (x y : Q) : bool := negb (Qle_bool y x).

(** The if/elif/else of lines 36-41 on the score. *)
Definition classify (polarity : Q) : label :=
  if py_gt polarity py_0_1 then Positive
  else if py_lt polarity (- py_0_1) then Negative
  else Neutral.

(** [analyze_sentiment(feedback)]: score the text, return the label's
    string. *)
Definition analyze_sentiment `{Polarity} (feedback : pystr) : pystr :=
  label_str (classify (polarity feedback)).

(** A stand-in scorer for concrete runs: a table from texts to scores,
    clamped to [-1, 1], 0 for texts not in the table.  It models no
    part of the program; it only instantiates [Polarity]. *)
Definition clamp (q : Q) : Q := Qmax (-1) (Qmin 1 q).

Fixpoint table_score (tbl : list (pystr * Q)) (s : pystr) : Q :=
  match tbl with
  | [] => 0
  | (t, q) :: tbl' => if bool_decide (t = s) then q else table_score tbl' s
  end.

Definition table_polarity (tbl : list (pystr * Q)) : Polarity :=
  {| polarity s := clamp (table_score tbl s);
     polarity_range s :=
       let q := table_score tbl s in
       conj (Q.le_max_l (-1) (Qmin 1 q))
            (Q.max_lub (-1) (Qmin 1 q) 1 ltac:(lra) (Q.le_min_l 1 q)) |}.

(** The order Negative < Neutral < Positive, to state monotonicity. *)
Definition rank (l : label) : nat :=
  match l with Negative => 0 | Neutral => 1 | Positive => 2 end.

(** The order of [Q] as decisions, to state the thresholds with
    [bool_decide]. *)
#[export] Instance Qlt_decision (x y : Q) : Decision (x < y) :=
  match Qlt_le_dec x y with left h => left h | right h => right (Qle_not_lt _ _ h) end.
#[export] Instance Qle_decision (x y : Q) : Decision (x <= y) :=
  match Qlt_le_dec y x with left h => right (Qlt_not_le _ _ h) | right h => left h end.

Lemma py_gt_spec x y : py_gt x y = true <-> y < x.
Proof.
  unfold py_gt. rewrite negb_true_iff, <- not_true_iff_false, Qle_bool_iff.
  split; [apply Qnot_le_lt|apply Qlt_not_le].
Qed.

Lemma py_lt_spec x y : py_lt x y = true <-> x < y.
Proof. apply py_gt_spec. Qed.

Lemma py_gt_false x y : py_gt x y = false <-> x <= y.
Proof. unfold py_gt. rewrite negb_false_iff. apply Qle_bool_iff. Qed.

Lemma py_lt_false x y : py_lt x y = false <-> y <= x.
Proof. apply py_gt_false. Qed.

Lemma label_str_inj l1 l2 : label_str l1 = label_str l2 -> l1 = l2.
Proof. destruct l1, l2; by compute. Qed.

(** Each branch of the threshold test. *)
Lemma classify_spec p :
  (classify p = Positive <-> py_0_1 < p) /\
  (classify p = Negative <-> p < - py_0_1) /\
  (classify p = Neutral <-> - py_0_1 <= p /\ p <= py_0_1).
Proof.
  unfold classify.
  destruct (py_gt p py_0_1) eqn:Eg; [apply py_gt_spec in Eg|apply py_gt_false in Eg];
    [|destruct (py_lt p (- py_0_1)) eqn:El;
      [apply py_lt_spec in El|apply py_lt_false in El]];
    (split_and!; split; [done| |done| |done| ]); intros; try done;
    exfalso; unfold py_0_1 in *; lra.
Qed.


#[export] Instance classify_proper : Proper (Qeq ==> eq) classify.
Proof.
  intros p q Hpq.
  destruct (classify_spec p) as (A & B & C), (classify_spec q) as (D & E & F).
  destruct (classify p); symmetry; [apply D|apply F|apply E];
    rewrite <- Hpq; [apply A|apply C|apply B]; reflexivity.
Qed.

(** C6: [analyze_sentiment] returns ["Positive"] exactly when the score
    is above the double [0.1], ["Negative"] exactly when it is below
    [-0.1], and ["Neutral"] otherwise, boundaries included. *)
Theorem analyze_sentiment_spec `{Polarity} s :
  (analyze_sentiment s = label_str Positive <-> py_0_1 < polarity s) /\
  (analyze_sentiment s = label_str Negative <-> polarity s < - py_0_1) /\
  (analyze_sentiment s = label_str Neutral <-> - py_0_1 <= polarity s <= py_0_1).
Proof.
  unfold analyze_sentiment. destruct (classify_spec (polarity s)) as (A & B & C).
  split_and!; [rewrite <- A|rewrite <- B|rewrite <- C];
    (split; [apply label_str_inj|intros ->; reflexivity]).
Qed.

(** The thresholds are tight at double precision: the doubles next to
    [0.1] and [-0.1] on the outside already change the label. *)
Theorem classify_threshold_tight :
  classify py_0_1 = Neutral /\
  classify (7205759403792795 # 72057594037927936) = Positive /\
  classify (- py_0_1) = Neutral /\
  classify (- (7205759403792795 # 72057594037927936)) = Negative.
Proof. split_and!; vm_compute; reflexivity. Qed.

(** A higher score never gives a lower label. *)
Theorem classify_monotone p q : p <= q -> (rank (classify p) <= rank (classify q))%nat.
Proof.
  intros Hpq.
  destruct (classify_spec p) as (Pp & Pn & Pz), (classify_spec q) as (Qp & Qn & Qz).
  destruct (classify p) eqn:Ep, (classify q) eqn:Eq; simpl; try lia; exfalso;
    repeat match goal with H : _ <-> _ |- _ => destruct H end;
    repeat match goal with
           | H : ?x = ?x -> _ |- _ => specialize (H eq_refl)
           end;
    unfold py_0_1 in *; try lra;
    repeat match goal with H : _ /\ _ |- _ => destruct H end; lra.
Qed.


(** ** Concrete instances *)

Lemma classify_monotone_witness : (rank (classify (1 # 20)) <= rank (classify (1 # 2)))%nat.
Proof. apply classify_monotone. apply Qle_bool_imp_le. vm_compute. reflexivity. Defined.

End Sentiment.
