(* ===== verification/Csv.v ===== *)
(** * Csv: the CSV text [DataFrame.to_csv(index=False)] writes, and
    the reader that parses it back

    [df.to_csv(index=False)] (src/app.py, line 97) hands each row to
    Python's [csv.writer] with pandas' defaults: delimiter [,],
    quotechar ["], [doublequote=True], [QUOTE_MINIMAL] and
    [lineterminator=os.linesep], which is ["\n"] on Linux.  Under
    Python 3.11 a field is quoted when it contains the delimiter, the
    quote character or a character of the line terminator, so a field
    holding [\r] but none of [,"\n] is written bare; a row made of one
    empty field is written [""].  [write_row] and [to_csv_rows] model
    this writer.

    [parse_csv] models [csv.reader] (excel dialect, not strict) reading
    a file opened with [newline=''], as the states of CPython's
    [parse_process_char]: outside quotes, [\n], [\r] and [\r\n] end a
    record; inside quotes every character is data and [""] is one
    quote.  It is the "parsing back" the specification's round-trip
    property speaks of.  The same machine with its flag [pd] set is
    pandas' tokenizer for [pd.read_csv] (line 23; see [Loader],
    [pd_records]): a record that starts with a space or a tab goes
    through [WHITESPACE_LINE], which skips the line when it holds
    nothing else ([skip_blank_lines=True]) and otherwise reads it as a
    field, spaces kept. *)

From S2P Require Import Prelude PyStr.

Module Csv.
Local Open Scope Z_scope.

(** ** Writer *)

Definition special (c : Z) : bool := (c =? 44) || (c =? 34) || (c =? 10).

(** QUOTE_MINIMAL: quote the field iff it holds a special character. *)
Definition needs_quote (f : pystr) : bool := existsb special f.

Definition escape_char (c : Z) : pystr := if c =? 34 then [34; 34] else [c].

Definition quote_field (f : pystr) : pystr :=
  if needs_quote f then 34 :: concat (map escape_char f) ++ [34] else f.

(** [writer.writerow(r)]: the fields joined by commas, then the line
    terminator; a single empty field is written as [""]. *)
Definition write_row (r : list pystr) : pystr :=
  match r with
  | [[]] => [34; 34; 10]
  | _ => PyStr.join [44] (map quote_field r) ++ [10]
  end.

Definition to_csv_rows (rows : list (list pystr)) : pystr :=
  concat (map write_row rows).

(** ** Reader *)

Inductive pstate := StartRecord | StartField | InField | InQuoted | QuoteInQuoted | WsLine.

(** pandas' [IS_WHITESPACE]: a space or a tab. *)
Definition is_ws (c : Z) : bool := (c =? 32) || (c =? 9).

(** The record being built, once its last field [fld] (reversed) is
    saved; a blank line is the empty record. *)
Definition close_record (st : pstate) (fld : pystr) (row : list pystr) : list pystr :=
  match st with
  | StartRecord => []
  | _ => reverse (reverse fld :: row)
  end.

(** [fld] is the current field and [row] the saved fields, both
    reversed.  With [pd] set, a record that starts with spaces or tabs
    goes through pandas' [WHITESPACE_LINE] state ([skip_blank_lines]):
    a line of spaces and tabs only is skipped, and any other character
    sends the tokenizer back to read the line as a field. *)
Fixpoint parse_go (pd : bool) (st : pstate) (fld : pystr) (row : list pystr) (s : pystr)
    : list (list pystr) :=
  match s with
  | [] =>
      match st with
      | StartRecord | WsLine => []
      | _ => [reverse (reverse fld :: row)]
      end
  | c :: s' =>
      match st with
      | InQuoted =>
          if c =? 34 then parse_go pd QuoteInQuoted fld row s'
          else parse_go pd InQuoted (c :: fld) row s'
      | WsLine =>
          if c =? 10 then parse_go pd StartRecord [] [] s'
          else if c =? 13 then
            match s' with
            | d :: s'' =>
                if d =? 10 then parse_go pd StartRecord [] [] s''
                else parse_go pd StartRecord [] [] s'
            | [] => []
            end
          else if is_ws c then parse_go pd WsLine (c :: fld) row s'
          else if c =? 44 then parse_go pd StartField [] (reverse fld :: row) s'
          else parse_go pd InField (c :: fld) row s'
      | _ =>
          if c =? 10 then close_record st fld row :: parse_go pd StartRecord [] [] s'
          else if c =? 13 then
            close_record st fld row ::
              match s' with
              | d :: s'' =>
                  if d =? 10 then parse_go pd StartRecord [] [] s''
                  else parse_go pd StartRecord [] [] s'
              | [] => []
              end
          else if c =? 44 then parse_go pd StartField [] (reverse fld :: row) s'
          else
            match st with
            | StartRecord =>
                if pd && is_ws c then parse_go pd WsLine [c] row s'
                else if c =? 34 then parse_go pd InQuoted [] row s'
                else parse_go pd InField [c] row s'
            | StartField =>
                if c =? 34 then parse_go pd InQuoted [] row s'
                else parse_go pd InField [c] row s'
            | QuoteInQuoted =>
                if c =? 34 then parse_go pd InQuoted (34 :: fld) row s'
                else parse_go pd InField (c :: fld) row s'
            | _ => parse_go pd InField (c :: fld) row s'
            end
      end
  end.

Definition parse_csv (s : pystr) : list (list pystr) := parse_go false StartRecord [] [] s.

(** The records of [pd.read_csv]'s tokenizer (line 23). *)
Definition pd_records (s : pystr) : list (list pystr) := parse_go true StartRecord [] [] s.

(** A line holds something else than spaces and tabs. *)
Definition has_text (l : pystr) : bool := existsb (fun c => negb (is_ws c)) l.

(** ** Round trip *)

(** A field survives writing and reading unless it is written bare and
    holds a [\r]. *)
Definition csv_safe (f : pystr) : bool :=
  needs_quote f || negb (existsb (fun c => c =? 13) f).

Definition start (st : pstate) : Prop := st = StartRecord \/ st = StartField.

Lemma bare_chars pd fld row f rest :
  Forall (fun c => special c = false /\ c <> 13) f ->
  parse_go pd InField fld row (f ++ rest) = parse_go pd InField (reverse f ++ fld) row rest.
Proof.
  intros Hf. revert fld. induction Hf as [|c f [Hc H13] _ IH]; intros fld; [done|].
  unfold special in Hc. simpl. repeat zcase.
  rewrite IH, reverse_cons. by rewrite <- app_assoc.
Qed.

Lemma quoted_chars fld row f rest :
  parse_go false InQuoted fld row (concat (map escape_char f) ++ 34 :: rest)
  = parse_go false QuoteInQuoted (reverse f ++ fld) row rest.
Proof.
  revert fld. induction f as [|c f IH]; intros fld; [done|].
  rewrite reverse_cons, <- app_assoc. cbn [concat map].
  destruct (Z.eqb_spec c 34) as [->|Hc]; [simpl; by rewrite IH|].
  replace (escape_char c) with [c] by (unfold escape_char; by rewrite (proj2 (Z.eqb_neq c 34) Hc)).
  simpl. rewrite (proj2 (Z.eqb_neq c 34) Hc). by rewrite IH.
Qed.

Lemma needs_quote_false f :
  needs_quote f = false -> Forall (fun c => special c = false) f.
Proof.
  unfold needs_quote. intros H. apply Forall_forall. intros c Hc.
  destruct (special c) eqn:E; [|done].
  apply list_elem_of_In in Hc. by rewrite (proj2 (existsb_exists _ _) (ex_intro _ c (conj Hc E))) in H.
Qed.

Lemma no_cr f : existsb (fun c => c =? 13) f = false -> Forall (fun c => c <> 13) f.
Proof.
  intros H. apply Forall_forall. intros c Hc ->. apply list_elem_of_In in Hc.
  assert (existsb (fun c => c =? 13) f = true) by (apply existsb_exists; eauto).
  congruence.
Qed.

(** Reading one written field from the start of a field. *)
Lemma field_reads st f row : start st -> csv_safe f = true ->
  exists st' fld',
    (forall rest, parse_go false st [] row (quote_field f ++ rest) = parse_go false st' fld' row rest)
    /\ reverse fld' = f /\ (st' = InField \/ st' = QuoteInQuoted \/ (st' = st /\ f = [])).
Proof.
  intros Hst Hsafe. unfold quote_field. destruct (needs_quote f) eqn:Hq.
  - exists QuoteInQuoted, (reverse f). split_and!; [|apply reverse_involutive|auto].
    intros rest. simpl. rewrite <- app_assoc.
    destruct Hst as [->| ->]; simpl; rewrite quoted_chars, app_nil_r; reflexivity.
  - unfold csv_safe in Hsafe. rewrite Hq in Hsafe. simpl in Hsafe.
    apply negb_true_iff, no_cr in Hsafe. apply needs_quote_false in Hq.
    destruct f as [|c f].
    + exists st, []. split_and!; auto.
    + exists InField, (reverse (c :: f)). split_and!; [|apply reverse_involutive|auto].
      intros rest. apply Forall_cons in Hq as [Hc Hq]. apply Forall_cons in Hsafe as [Hc13 Hsafe].
      unfold special in Hc. simpl.
      destruct Hst as [->| ->]; repeat zcase; rewrite bare_chars, reverse_cons by
        (apply Forall_and; split; done); reflexivity.
Qed.

Lemma after_comma st fld row rest : st <> InQuoted ->
  parse_go false st fld row (44 :: rest) = parse_go false StartField [] (reverse fld :: row) rest.
Proof. by destruct st. Qed.

Lemma after_nl st fld row rest : st <> InQuoted -> st <> StartRecord -> st <> WsLine ->
  parse_go false st fld row (10 :: rest) = reverse (reverse fld :: row) :: parse_csv rest.
Proof. by destruct st. Qed.

Abbreviation all_safe := (Forall (fun f => csv_safe f = true)).

(** The fields of one written row, up to its line terminator. *)
Lemma fields_read fs : forall st f row rest,
  start st -> all_safe (f :: fs) -> (st = StartField \/ f <> [] \/ fs <> []) ->
  parse_go false st [] row
    (quote_field f ++ concat (map (fun y => [44] ++ y) (map quote_field fs)) ++ 10 :: rest)
  = (reverse row ++ f :: fs) :: parse_csv rest.
Proof.
  induction fs as [|g gs IH]; intros st f row rest Hst Hsafe Hne;
    apply Forall_cons in Hsafe as [Hf Hsafe];
    destruct (field_reads st f row Hst Hf) as (st' & fld' & Hrd & Hrev & Hcase); simpl.
  - rewrite Hrd, after_nl, Hrev, reverse_cons; [done|..];
      destruct Hst as [-> | ->]; destruct Hcase as [-> | [-> | [-> ->]]]; intuition congruence.
  - rewrite <- app_assoc. simpl. rewrite Hrd, after_comma, Hrev
      by (destruct Hst as [-> | ->]; destruct Hcase as [-> | [-> | [-> _]]]; done).
    rewrite IH by (auto; by right). by rewrite reverse_cons, <- app_assoc.
Qed.

Lemma row_read r rest : all_safe r -> parse_csv (write_row r ++ rest) = r :: parse_csv rest.
Proof.
  intros Hsafe. destruct r as [|f [|g gs]]; [done| |].
  - destruct f as [|c f']; [done|]. unfold write_row, parse_csv. simpl.
    rewrite app_nil_r, <- app_assoc.
    exact (fields_read [] StartRecord (c :: f') [] rest
             (or_introl eq_refl) Hsafe
             (or_intror (or_introl (fun H : c :: f' = [] => ltac:(discriminate H))))).
  - replace (write_row (f :: g :: gs))
      with (PyStr.join [44] (map quote_field (f :: g :: gs)) ++ [10]) by (by destruct f).
    unfold parse_csv. simpl. rewrite <- !app_assoc.
    exact (fields_read (g :: gs) StartRecord f [] rest
             (or_introl eq_refl) Hsafe
             (or_intror (or_intror (fun H : g :: gs = [] => ltac:(discriminate H))))).
Qed.

Lemma rows_read rows : Forall all_safe rows -> parse_csv (to_csv_rows rows) = rows.
Proof.
  induction 1 as [|r rows Hr _ IH]; [done|].
  unfold to_csv_rows. simpl. rewrite row_read by done. f_equal. exact IH.
Qed.

(** C15: The round trip the specification promises for the download: the
    rows the writer emits are parsed back, in order, provided no field
    is written bare with a [\r] in it. *)
Theorem csv_roundtrip rows :
  Forall all_safe rows -> parse_csv (to_csv_rows rows) = rows.
Proof. apply rows_read. Qed.

Abbreviation bare := (Forall (fun c => special c = false /\ c <> 13)).

Lemma plain_not_quoted f : Forall (fun c => special c = false) f -> needs_quote f = false.
Proof.
  intros Hf. unfold needs_quote. apply not_true_iff_false. intros Hx.
  apply existsb_exists in Hx as (c & Hc & Hs). apply list_elem_of_In in Hc.
  rewrite Forall_forall in Hf. rewrite (Hf c Hc) in Hs. discriminate.
Qed.

Lemma bare_not_quoted f : bare f -> needs_quote f = false.
Proof. intros Hf. apply plain_not_quoted. eapply Forall_impl; [exact Hf|]. by intros c [? _]. Qed.

(** C28: Without the proviso the round trip fails: Python 3.11 writes a
    field holding a carriage return but no comma, quote or line feed
    bare, and the
    reader ends the record at the [\r]: the field's two sides come
    back as two records, the rest of the row joining the second. *)
Theorem csv_roundtrip_cr_fails x y gs rows :
  x <> [] -> y <> [] -> bare x -> bare y -> all_safe gs ->
  parse_csv (to_csv_rows (((x ++ 13 :: y) :: gs) :: rows))
  = [x] :: (y :: gs) :: parse_csv (to_csv_rows rows).
Proof.
  intros Hx Hy Bx By Hgs.
  assert (Hq : quote_field (x ++ 13 :: y) = x ++ 13 :: y).
  { unfold quote_field. rewrite plain_not_quoted; [done|]. apply Forall_app; split;
      [|constructor; [done|]]; eapply Forall_impl; try eassumption; by intros c [? _]. }
  assert (Hqy : quote_field y = y) by (unfold quote_field; by rewrite bare_not_quoted).
  assert (Hsy : csv_safe y = true).
  { unfold csv_safe. rewrite bare_not_quoted by done. simpl. apply negb_true_iff.
    apply not_true_iff_false. intros Hc. apply existsb_exists in Hc as (c & Hc & H13).
    apply list_elem_of_In in Hc. rewrite Forall_forall in By. apply Z.eqb_eq in H13.
    by destruct (By c Hc). }
  assert (Hw : forall f, f <> [] -> write_row (f :: gs)
            = quote_field f ++ concat (map (fun z => [44] ++ z) (map quote_field gs)) ++ [10]).
  { intros f Hf. unfold write_row. destruct f; [done|]. rewrite app_assoc. f_equal. }
  destruct x as [|x0 x']; [done|]. apply Forall_cons in Bx as [[Hs0 H0] Bx].
  unfold special in Hs0. apply orb_false_iff in Hs0 as [Hs0 H10]. apply orb_false_iff in Hs0 as [H44 H34].
  unfold to_csv_rows at 1. cbn [map concat]. rewrite Hw by (by destruct x'). rewrite Hq.
  unfold parse_csv. cbn [app parse_go]. rewrite H10, H44, H34. simpl andb.
  rewrite <- !app_assoc, bare_chars by done. cbn [app parse_go Z.eqb Pos.eqb].
  destruct y as [|y0 y']; [done|]. apply Forall_cons in By as [[Hy0 Hy13] By'].
  unfold special in Hy0. apply orb_false_iff in Hy0 as [_ Hy10].
  cbn [app]. rewrite Hy10, (proj2 (Z.eqb_neq _ _) H0).
  pose proof (fields_read gs StartRecord (y0 :: y') [] (concat (map write_row rows))
                (or_introl eq_refl) (Forall_cons_2 _ _ _ Hsy Hgs) (or_intror (or_introl Hy))) as Hf.
  rewrite Hqy in Hf. cbn [app] in Hf. unfold parse_csv in Hf. rewrite Hf.
  unfold close_record, to_csv_rows. by rewrite reverse_snoc, reverse_involutive.
Qed.


(** ** Lines read by [pd_records] *)

Lemma infield_line pd fld l rest : bare l ->
  parse_go pd InField fld [] (l ++ 10 :: rest) = [reverse fld ++ l] :: parse_go pd StartRecord [] [] rest.
Proof.
  intros Hl. rewrite bare_chars by done. cbn [parse_go Z.eqb Pos.eqb close_record].
  by rewrite reverse_singleton, reverse_app, reverse_involutive.
Qed.

(** A line that starts with spaces or tabs is skipped when nothing else
    follows, and read whole, spaces kept, otherwise. *)
Lemma wsline_line fld l rest : bare l ->
  parse_go true WsLine fld [] (l ++ 10 :: rest)
  = if has_text l then [reverse fld ++ l] :: pd_records rest else pd_records rest.
Proof.
  revert fld. induction l as [|c l IH]; intros fld Hl; [done|].
  apply Forall_cons in Hl as [[Hs H13] Hl]. unfold special in Hs.
  apply orb_false_iff in Hs as [Hs H10]. apply orb_false_iff in Hs as [H44 H34].
  simpl. rewrite H10, (proj2 (Z.eqb_neq c 13) H13). destruct (is_ws c); simpl.
  - rewrite IH by done. by rewrite reverse_cons, <- app_assoc.
  - rewrite H44, infield_line by done. by rewrite reverse_cons, <- app_assoc.
Qed.

(** A property of every character of the fields and of the three
    characters the writer adds holds of every character it writes. *)
Lemma to_csv_rows_Forall (P : Z -> Prop) rows :
  P 44 -> P 34 -> P 10 -> Forall (Forall (Forall P)) rows -> Forall P (to_csv_rows rows).
Proof.
  intros H44 H34 H10 Hrows. unfold to_csv_rows. apply Forall_concat, Forall_map.
  eapply Forall_impl; [exact Hrows|]. intros r Hr.
  assert (Hq : Forall (Forall P) (map quote_field r)).
  { apply Forall_map. eapply Forall_impl; [exact Hr|]. intros f Hf. unfold quote_field.
    destruct (needs_quote f); [|done]. constructor; [done|]. apply Forall_app; split; [|by constructor].
    apply Forall_concat, Forall_map. eapply Forall_impl; [exact Hf|].
    intros c Hc. unfold escape_char. by destruct (c =? 34); repeat constructor. }
  assert (Hj : Forall P (PyStr.join [44] (map quote_field r))).
  { destruct (map quote_field r) as [|x xs]; [constructor|]. apply Forall_cons in Hq as [Hx Hxs].
    simpl. apply Forall_app; split; [done|]. apply Forall_concat, Forall_map.
    eapply Forall_impl; [exact Hxs|]. intros y Hy. by constructor. }
  destruct r as [|[|c f] [|g gs]]; try (apply Forall_app; split; [done|by constructor]).
  simpl. by repeat constructor.
Qed.


Lemma no_cr_safe f : Forall (fun c => c <> 13) f -> csv_safe f = true.
Proof.
  intros Hf. unfold csv_safe. apply orb_true_iff. right. apply negb_true_iff.
  apply not_true_iff_false. intros (c & Hc & E)%existsb_exists. apply Z.eqb_eq in E as ->.
  rewrite Forall_forall in Hf. apply (Hf 13); [by apply list_elem_of_In|done].
Qed.


(** ** Concrete instances *)

(** The header and a row whose text holds a comma and quotes. *)
Lemma csv_roundtrip_witness :
  parse_csv (to_csv_rows [[lit "Feedback"; lit "Sentiment"];
                          [[97; 44; 32; 34; 98; 34]; lit "Positive"]])
  = [[lit "Feedback"; lit "Sentiment"]; [[97; 44; 32; 34; 98; 34]; lit "Positive"]].
Proof. apply csv_roundtrip. apply (bool_decide_unpack _). vm_compute. reflexivity. Defined.

(** A note of two lines typed with a Windows line break inside one
    field, beside its label. *)
Lemma csv_roundtrip_cr_fails_witness :
  parse_csv (to_csv_rows [[lit "ab" ++ 13 :: lit "cd"; lit "Neutral"]])
  = [[lit "ab"]; [lit "cd"; lit "Neutral"]].
Proof.
  apply (csv_roundtrip_cr_fails (lit "ab") (lit "cd") [lit "Neutral"] []);
    [discriminate|discriminate|..]; apply (bool_decide_unpack _); vm_compute; reflexivity.
Defined.

End Csv.
