(* ===== verification/Loader.v ===== *)
(** * Loader: [load_feedback] (src/app.py, lines 20-30)

    The uploaded file is its name and its bytes ([upload]); "no file"
    is [None].  Three branches, as in the source:
    - a name ending in [".csv"]: [pd.read_csv(upload_file)], first
      column, [dropna()], [astype(str)], [tolist()] ([read_csv_col0]);
    - any other file: [read().decode("utf-8")], then the lines that
      are not blank after [strip()], stripped ([text_lines]);
    - no file: the same on the pasted text.
    The decoder may raise, so the loader returns a [result].

    [pd.read_csv] is modelled as pandas 2.x reads such a file with its
    defaults: a leading byte order mark is skipped, the bytes are
    decoded as UTF-8, empty lines and lines of spaces and tabs only
    are skipped ([Csv.pd_records]), the first row is the header (a file with no rows raises
    [EmptyDataError]), and a field equal to one of pandas' default NA
    strings is missing.  Not modelled: the dtype inference that turns
    an all-numeric column into numbers (this model is exact when the
    first column is of [object] dtype), a data row wider than the
    header (which pandas turns into an index), and the differences
    between pandas' C tokenizer and [csv.reader] on malformed quoting. *)

From S2P Require Import Prelude PyStr Utf8 Csv.

Module Loader.
Local Open Scope pfa_scope.

Record upload := Upload { name : pystr; data : list Z }.

(** [[line.strip() for line in s.splitlines() if line.strip()]]. *)
Definition text_lines (s : pystr) : list pystr :=
  map PyStr.strip
    (List.filter (fun line => negb (bool_decide (PyStr.strip line = []))) (PyStr.splitlines s)).

(** pandas' [STR_NA_VALUES]: a field spelt like this is [NaN]. *)
Definition na_values : list pystr :=
  map lit ["#N/A"; "#N/A N/A"; "#NA"; "-1.#IND"; "-1.#QNAN"; "-NaN"; "-nan";
           "1.#IND"; "1.#QNAN"; "<NA>"; "N/A"; "NA"; "NULL"; "NaN"; "None";
           "n/a"; "nan"; "null"; ""]%string.

Definition is_na (f : pystr) : bool := bool_decide (f ∈ na_values).

(** pandas' tokenizer skips a UTF-8 byte order mark at the start of the
    file ([CHECK_FOR_BOM] in its [tokenize_bytes]). *)
Definition skip_bom (bytes : list Z) : list Z :=
  if bool_decide (take 3 bytes = [239; 187; 191]%Z) then drop 3 bytes else bytes.

(** [pd.read_csv(f).iloc[:, 0].dropna().astype(str).tolist()]. *)
Definition read_csv_col0 (bytes : list Z) : result (list pystr) :=
  let* text := Utf8.decode (skip_bom bytes) in
  match List.filter (fun r => negb (bool_decide (r = []))) (Csv.pd_records text) with
  | [] => Raise (Exn (lit "EmptyDataError") (lit "No columns to parse from file"))
  | _header :: rows =>
      Ok (List.filter (fun f => negb (is_na f)) (map (fun r => default [] (head r)) rows))
  end.

(** [load_feedback(upload_file, text_input)]. *)
Definition load_feedback (upload_file : option upload) (text_input : pystr)
    : result (list pystr) :=
  match upload_file with
  | Some f =>
      if PyStr.endswith (name f) (lit ".csv") then read_csv_col0 (data f)
      else let* content := Utf8.decode (data f) in Ok (text_lines content)
  | None => Ok (text_lines text_input)
  end.


(** ** The text branches *)

Abbreviation item_ok := (fun l : pystr => l <> [] /\ PyStr.strip l = l /\ PyStr.no_break l).

Lemma keep_nonblank l :
  negb (bool_decide (PyStr.strip l = [])) = true <-> PyStr.strip l <> [].
Proof. rewrite negb_true_iff, bool_decide_eq_false. done. Qed.

(** A property of characters that holds throughout the lines holds
    throughout the items. *)
Lemma text_lines_chars (P : Z -> Prop) s :
  Forall (Forall P) (PyStr.splitlines s) -> Forall (Forall P) (text_lines s).
Proof. intros H. apply (Forall_map_filter (Forall P)); [done|]. intros l Hl _. by apply PyStr.strip_Forall. Qed.

Lemma text_lines_nil_space s : text_lines s = [] -> PyStr.all_space s.
Proof.
  unfold text_lines. intros H. apply map_eq_nil, filter_nil_iff in H.
  assert (Hl : Forall (Forall (fun c => PyStr.isspace c = true)) (PyStr.splitlines s)).
  { eapply Forall_impl; [exact H|]. intros l Hl.
    apply PyStr.strip_nil_iff. by apply negb_false_iff, bool_decide_eq_true in Hl. }
  apply PyStr.splitlines_Forall in Hl. eapply Forall_impl; [exact Hl|].
  intros c Hc. destruct (PyStr.is_linebreak c) eqn:E; [by apply PyStr.linebreak_isspace|auto].
Qed.

(** C13: Every item the text path yields is non-empty, has no whitespace to
    strip and holds no line boundary. *)
Theorem text_lines_items s : Forall item_ok (text_lines s).
Proof.
  apply (Forall_map_filter PyStr.no_break); [apply PyStr.splitlines_no_break|].
  intros l Hl Hkeep. apply keep_nonblank in Hkeep.
  split_and!; [done|apply PyStr.strip_edges_id, PyStr.strip_edges|by apply PyStr.strip_Forall].
Qed.

Lemma last_not_nil (ls : list pystr) : Forall (fun l => l <> []) ls -> last ls <> Some [].
Proof.
  intros H Hl. apply last_Some_elem_of in Hl.
  rewrite Forall_forall in H. by apply (H [] Hl).
Qed.

Lemma join_lines ls : Forall item_ok ls -> text_lines (PyStr.join [10%Z] ls) = ls.
Proof.
  intros H. unfold text_lines.
  rewrite PyStr.splitlines_join.
  - apply map_filter_id. eapply Forall_impl; [exact H|].
    intros l (Hne & Hs & _). split; [apply keep_nonblank; by rewrite Hs|done].
  - eapply Forall_impl; [exact H|]. by intros l (_ & _ & ?).
  - apply last_not_nil. eapply Forall_impl; [exact H|]. by intros l [? _].
Qed.

(** C21: Pasting items one per line gives them back, in order. *)
Theorem text_lines_join ls : Forall item_ok ls -> text_lines (PyStr.join [10%Z] ls) = ls.
Proof. apply join_lines. Qed.

Lemma text_lines_space_nil s : PyStr.all_space s -> text_lines s = [].
Proof.
  unfold text_lines. intros H.
  assert (Hl : Forall (Forall (fun c => PyStr.isspace c = true)) (PyStr.splitlines s)).
  { apply PyStr.splitlines_Forall. eapply Forall_impl; [exact H|]. auto. }
  enough (Hf : List.filter (fun line => negb (bool_decide (PyStr.strip line = [])))
                 (PyStr.splitlines s) = []) by (by rewrite Hf).
  apply filter_nil_iff. eapply Forall_impl; [exact Hl|].
  intros l Hsp. apply PyStr.strip_nil_iff in Hsp. by rewrite Hsp.
Qed.

(** C14: The text path yields nothing exactly when the text is whitespace
    only: the condition under which the run stops with EmptyInput. *)
Theorem text_lines_nil_iff s : text_lines s = [] <-> PyStr.all_space s.
Proof.
  split; [apply text_lines_nil_space|apply text_lines_space_nil].
Qed.


(** ** The csv branch *)

Abbreviation nonempty := (List.filter (fun r : list pystr => negb (bool_decide (r = [])))).



Abbreviation blank_char := (fun c : Z => c = 9 \/ c = 10 \/ c = 13 \/ c = 32)%Z.

(** Text of spaces, tabs and line breaks only has no record. *)
Lemma pd_blank s : Forall blank_char s -> forall st fld row,
  (st = Csv.StartRecord \/ st = Csv.WsLine) -> nonempty (Csv.parse_go true st fld row s) = [].
Proof.
  induction s as [s IH] using list_len_ind. intros Hs st fld row Hst.
  destruct s as [|c s']; [by destruct Hst as [-> | ->]|].
  apply Forall_cons in Hs as [Hc Hs'].
  destruct Hst as [-> | ->]; destruct Hc as [->|[->|[->| ->]]]; simpl;
    try (apply IH; [simpl; lia|done|auto]);
    destruct s' as [|d s'']; try done; pose proof Hs' as Hd; apply Forall_cons in Hd as [_ Hs''];
    destruct (d =? 10)%Z; apply IH; simpl; auto with lia.
Qed.

(** A csv upload of blank text has no header: [EmptyDataError]. *)
Lemma load_csv_blank n bs t s :
  PyStr.endswith n (lit ".csv") = true -> Utf8.decode (skip_bom bs) = Ok s -> Forall blank_char s ->
  load_feedback (Some (Upload n bs)) t
  = Raise (Exn (lit "EmptyDataError") (lit "No columns to parse from file")).
Proof.
  intros Hn Hd Hs. unfold load_feedback. cbn [name data]. rewrite Hn. unfold read_csv_col0.
  rewrite Hd. cbn [bind]. unfold Csv.pd_records. by rewrite pd_blank by auto.
Qed.

Lemma blank_all_space s : Forall blank_char s -> PyStr.all_space s.
Proof. intros Hs. eapply Forall_impl; [exact Hs|]. by intros c [->|[->|[->| ->]]]. Qed.


Lemma skip_bom_bom bs : skip_bom ([239; 187; 191] ++ bs)%Z = bs.
Proof. unfold skip_bom. by rewrite bool_decide_eq_true_2. Qed.

(** C27: A UTF-8 byte order mark (as Windows editors write) is skipped
    on a csv upload, once, but kept on a text upload:
    [bytes.decode("utf-8")] turns it into U+FEFF, which [str.strip()]
    does not remove, so the first item carries the mark in front (and a
    first line otherwise blank becomes an invisible item). *)
Theorem load_bom n bs t :
  (PyStr.endswith n (lit ".csv") = true -> take 3 bs <> [239; 187; 191]%Z ->
   load_feedback (Some (Upload n ([239; 187; 191] ++ bs)%Z)) t = load_feedback (Some (Upload n bs)) t) /\
  (forall l rest, PyStr.endswith n (lit ".csv") = false ->
   Utf8.decode bs = Ok (l ++ 10%Z :: rest) -> PyStr.no_break l ->
   load_feedback (Some (Upload n ([239; 187; 191] ++ bs)%Z)) t
   = Ok ((0xFEFF%Z :: PyStr.rstrip l) :: text_lines rest)).
Proof.
  split.
  - intros Hn Hb. unfold load_feedback. cbn [name data]. rewrite Hn. unfold read_csv_col0.
    rewrite skip_bom_bom. unfold skip_bom. by rewrite (bool_decide_eq_false_2 (take 3 bs = _)) by done.
  - intros l rest Hn Hd Hl. unfold load_feedback. cbn [name data].
    rewrite Hn, (Utf8.decode_bom _ _ Hd). cbn [bind]. unfold text_lines.
    rewrite app_comm_cons, PyStr.splitlines_line_lf by (by constructor).
    assert (Hs : PyStr.strip (0xFEFF%Z :: l) = 0xFEFF%Z :: PyStr.rstrip l)
      by (unfold PyStr.strip; by rewrite <- PyStr.rstrip_cons).
    cbn [List.filter map]. rewrite Hs, bool_decide_eq_false_2 by done. cbn [negb map]. by rewrite Hs.
Qed.

(** ** Concrete instances *)

Lemma text_lines_join_witness :
  text_lines (PyStr.join [10%Z] [lit "Great product!"; lit "It's okay."])
  = [lit "Great product!"; lit "It's okay."].
Proof. apply text_lines_join. apply (bool_decide_unpack _). vm_compute. reflexivity. Defined.


(** A text file saved with a mark whose first line is "Great". *)
Lemma load_bom_witness :
  (take 3 (lit "Feedback" ++ [10%Z] ++ lit "Great") <> [239; 187; 191]%Z /\
   load_feedback (Some (Upload (lit "notes.csv") ([239; 187; 191] ++ lit "Feedback" ++ [10] ++ lit "Great")%Z)) []
   = load_feedback (Some (Upload (lit "notes.csv") (lit "Feedback" ++ [10] ++ lit "Great")%Z)) []) /\
  load_feedback (Some (Upload (lit "notes.txt") ([239; 187; 191] ++ lit "Great " ++ [10] ++ lit "Fine")%Z)) []
  = Ok [0xFEFF%Z :: lit "Great"; lit "Fine"].
Proof.
  assert (Hne : take 3 (lit "Feedback" ++ [10%Z] ++ lit "Great") <> [239; 187; 191]%Z)
    by (vm_compute; discriminate).
  split; [split; [exact Hne|]|].
  - apply (proj1 (load_bom (lit "notes.csv") _ [])); [reflexivity|exact Hne].
  - apply (proj2 (load_bom (lit "notes.txt") _ []) (lit "Great ") (lit "Fine"));
      [reflexivity|vm_compute; reflexivity|apply (bool_decide_unpack _); vm_compute; reflexivity].
Defined.

End Loader.
