(* ===== verification/Aggregate.v ===== *)
(** * Aggregate: the results table and the pie chart (src/app.py,
    lines 72-88)

    [sentiments = [analyze_sentiment(f) for f in feedbacks]] and
    [df = pd.DataFrame({"Feedback": feedbacks, "Sentiment": sentiments})]
    build the table ([DataFrame], [make_df]); [st.dataframe(df)] shows
    its rows ([df_rows]).  [df['Sentiment'].value_counts()] counts each
    distinct label: pandas 2.x lists the distinct values in order of
    first appearance ([uniques]) and sorts them by count, descending,
    stably, so that ties keep that order ([value_counts], an insertion
    sort).  [.plot.pie(autopct='%1.1f%%', colors=['green','red','grey'])]
    draws one wedge per entry, in that order, the i-th taking the i-th
    colour of the cycle ([pie_wedges]); the percentage printed on a
    wedge is [100 * value / x.sum()], matplotlib normalising by the sum
    of the wedges' values ([wedge_pct], before formatting).

    Tie order: pandas sorts with [nargsort] (reverse, [argsort] with
    kind "quicksort", reverse).  On the at most three labels numpy's
    quicksort is an insertion sort, which is stable; the model assumes
    that.  The vectorised argsort some numpy builds dispatch to on
    AVX-512 machines is not documented as stable, and with it ties may
    come in another order. *)

From S2P Require Import Prelude PyStr Sentiment.
From Stdlib Require Import QArith Sorted.

Module Aggregate.
Import Sentiment.

Record DataFrame := MkDF { Feedback : list pystr; Sentiment : list pystr }.

Section WithScorer.
Context `{Polarity}.

(** Line 72. *)
Definition sentiments (feedbacks : list pystr) : list pystr :=
  map analyze_sentiment feedbacks.

(** Line 73. *)
Definition make_df (feedbacks : list pystr) : DataFrame :=
  MkDF feedbacks (sentiments feedbacks).

End WithScorer.

(** The rows [st.dataframe] shows and [to_csv] writes. *)
Definition df_rows (df : DataFrame) : list (pystr * pystr) := zip (Feedback df) (Sentiment df).

Definition count_of (u : pystr) (col : list pystr) : nat :=
  length (List.filter (fun y => bool_decide (y = u)) col).

(** The distinct values of a column, in order of first appearance. *)
Fixpoint uniques (col : list pystr) : list pystr :=
  match col with
  | [] => []
  | x :: col' => x :: List.filter (fun y => negb (bool_decide (y = x))) (uniques col')
  end.

(** Insert after every entry whose count is at least as large. *)
Fixpoint insert_desc (p : pystr * nat) (l : list (pystr * nat)) : list (pystr * nat) :=
  match l with
  | [] => [p]
  | q :: l' => if (q.2 <? p.2)%nat then p :: q :: l' else q :: insert_desc p l'
  end.

Fixpoint sort_desc (l : list (pystr * nat)) : list (pystr * nat) :=
  match l with
  | [] => []
  | p :: l' => insert_desc p (sort_desc l')
  end.

(** [Series.value_counts()]: the stable sort of the first-appearance
    list, most frequent first. *)
Definition value_counts (col : list pystr) : list (pystr * nat) :=
  sort_desc (reverse (map (fun u => (u, count_of u col)) (uniques col))).

Definition colors : list pystr := [lit "green"; lit "red"; lit "grey"].

Record wedge := Wedge { w_label : pystr; w_count : nat; w_color : pystr }.

(** One wedge per [value_counts] entry; matplotlib cycles through the
    colours by position. *)
Definition pie_wedges (vc : list (pystr * nat)) : list wedge :=
  imap (fun i p => Wedge p.1 p.2 (default [] (colors !! (i mod 3)))) vc.




(** The order [value_counts] sorts by: larger counts first. *)
Definition by_count (p q : pystr * nat) : Prop := (q.2 <= p.2)%nat.

Abbreviation drop_eq x := (List.filter (fun y : pystr => negb (bool_decide (y = x)))).


(** The three strings a Sentiment cell can hold. *)
Definition label_strs : list pystr := map label_str [Positive; Neutral; Negative].

(** [n; n-1; ...; 1]. *)
Fixpoint down (n : nat) : list nat :=
  match n with O => [] | S m => S m :: down m end.

(** The entries of [l] with count [k], in the order of [l]. *)
Definition with_count (k : nat) (l : list (pystr * nat)) : list (pystr * nat) :=
  List.filter (fun p => p.2 =? k)%nat l.

(** The order pandas documents for [value_counts()] with its default
    [sort=True]: the largest count first and, among equal counts, the
    values in order of first appearance. *)
Definition value_counts_ref (col : list pystr) : list (pystr * nat) :=
  let firsts := map (fun u => (u, count_of u col)) (uniques col) in
  concat (map (fun k => with_count k firsts) (down (length col))).


(** ** The results table *)

Lemma count_of_cons u x col :
  count_of u (x :: col) = ((if bool_decide (x = u) then 1 else 0) + count_of u col)%nat.
Proof. unfold count_of. simpl. by case_bool_decide. Qed.

Lemma label_indicator l :
  ((if bool_decide (label_str l = label_str Positive) then 1 else 0)
   + (if bool_decide (label_str l = label_str Neutral) then 1 else 0)
   + (if bool_decide (label_str l = label_str Negative) then 1 else 0))%nat = 1%nat.
Proof. by destruct l. Qed.

(** The rows of one label are the items whose score meets that
    label's condition. *)
Lemma count_label `{Polarity} l (P : Q -> Prop) `{forall q, Decision (P q)} fs :
  (forall q, classify q = l <-> P q) ->
  count_of (label_str l) (sentiments fs) = length (List.filter (fun f => bool_decide (P (polarity f))) fs).
Proof.
  intros HP. induction fs as [|f fs IH]; [done|]. unfold sentiments in *. simpl map.
  rewrite count_of_cons, IH. change (analyze_sentiment f) with (label_str (classify (polarity f))).
  simpl. rewrite (bool_decide_ext (label_str (classify (polarity f)) = label_str l) (P (polarity f))).
  - by case_bool_decide.
  - rewrite <- HP. split; [apply label_str_inj|by intros ->].
Qed.

(** C7: The pie's counts are the numbers of items above the double
    [0.1], below [-0.1], and between them (boundaries included); the
    three add up to the number of items. *)
Theorem label_counts_total `{Polarity} fs :
  count_of (label_str Positive) (sentiments fs)
    = length (List.filter (fun f => bool_decide (py_0_1 < polarity f)) fs) /\
  count_of (label_str Negative) (sentiments fs)
    = length (List.filter (fun f => bool_decide (polarity f < - py_0_1)) fs) /\
  count_of (label_str Neutral) (sentiments fs)
    = length (List.filter (fun f => bool_decide (- py_0_1 <= polarity f /\ polarity f <= py_0_1)) fs) /\
  (count_of (label_str Positive) (sentiments fs) + count_of (label_str Neutral) (sentiments fs)
   + count_of (label_str Negative) (sentiments fs))%nat = length fs.
Proof.
  split_and!;
    [ apply (@count_label _ Positive (fun q => py_0_1 < q) (fun q => Qlt_decision py_0_1 q)); intros q; apply (classify_spec q)
    | apply (@count_label _ Negative (fun q => q < - py_0_1) (fun q => Qlt_decision q (- py_0_1))); intros q; apply (classify_spec q)
    | apply (@count_label _ Neutral (fun q => - py_0_1 <= q /\ q <= py_0_1)
        (fun q => and_dec (Qle_decision _ _) (Qle_decision _ _))); intros q; apply (classify_spec q)
    | ].
  induction fs as [|f fs IH]; [done|]. unfold sentiments in *. simpl map.
  rewrite !count_of_cons. change (analyze_sentiment f) with (label_str (classify (polarity f))).
  pose proof (label_indicator (classify (polarity f))). cbn [length]. lia.
Qed.

(** ** value_counts *)


Lemma insert_desc_perm p l : insert_desc p l ≡ₚ p :: l.
Proof.
  induction l as [|q l IH]; simpl; [done|].
  destruct (q.2 <? p.2)%nat; [done|]. rewrite IH. apply perm_swap.
Qed.

Lemma sort_desc_perm l : sort_desc l ≡ₚ l.
Proof. induction l as [|p l IH]; simpl; [done|]. by rewrite insert_desc_perm, IH. Qed.

Lemma insert_desc_hd q p l :
  by_count q p -> HdRel by_count q l -> HdRel by_count q (insert_desc p l).
Proof.
  intros Hqp Hql. destruct l as [|r l]; simpl; [by constructor|].
  destruct (r.2 <? p.2)%nat; constructor; [done|]. by inversion Hql.
Qed.

Lemma insert_desc_sorted p l : Sorted by_count l -> Sorted by_count (insert_desc p l).
Proof.
  induction l as [|q l IH]; simpl; intros Hs; [by repeat constructor|].
  destruct (Nat.ltb_spec q.2 p.2).
  - constructor; [done|]. constructor. unfold by_count. lia.
  - inversion Hs as [|? ? Hl Hhd]; subst. constructor; [by apply IH|].
    apply insert_desc_hd; [unfold by_count; lia|done].
Qed.

Lemma sort_desc_sorted l : Sorted by_count (sort_desc l).
Proof. induction l; simpl; [constructor|by apply insert_desc_sorted]. Qed.

Lemma uniques_In x col : In x (uniques col) <-> In x col.
Proof.
  induction col as [|y col IH]; simpl; [done|].
  rewrite filter_In, IH, negb_true_iff, bool_decide_eq_false.
  destruct (decide (y = x)); intuition congruence.
Qed.

Lemma uniques_NoDup col : List.NoDup (uniques col).
Proof.
  induction col as [|y col IH]; simpl; constructor.
  - rewrite filter_In, negb_true_iff, bool_decide_eq_false. intuition.
  - apply List.NoDup_filter. exact IH.
Qed.



Lemma filter_not_in x U : ~ In x U -> drop_eq x U = U.
Proof.
  induction U as [|u U IH]; simpl; intros Hx; [done|].
  rewrite bool_decide_false by naive_solver. simpl. f_equal. naive_solver.
Qed.

(** Summing over a duplicate-free list, with [x] taken out first. *)
Lemma sum_split (f : pystr -> nat) x U : List.NoDup U ->
  sum_list (map f U)
  = ((if bool_decide (x ∈ U) then f x else 0) + sum_list (map f (drop_eq x U)))%nat.
Proof.
  induction 1 as [|u U Hu _ IH]; [by rewrite bool_decide_false by apply not_elem_of_nil|].
  simpl. destruct (decide (u = x)) as [->|Hne].
  - rewrite bool_decide_true by constructor. rewrite (bool_decide_true (x = x)) by done. simpl.
    rewrite filter_not_in by done. lia.
  - rewrite (bool_decide_false (u = x)) by done. simpl. rewrite IH.
    rewrite (bool_decide_ext (x ∈ u :: U) (x ∈ U)) by (rewrite elem_of_cons; naive_solver).
    lia.
Qed.

Lemma count_of_not_in u col : ~ In u col -> count_of u col = 0%nat.
Proof.
  induction col as [|y col IH]; simpl; intros Hu; [done|].
  rewrite count_of_cons, bool_decide_false by naive_solver. naive_solver.
Qed.

Lemma uniques_count_total col :
  sum_list (map (fun u => count_of u col) (uniques col)) = length col.
Proof.
  induction col as [|x col IH]; [done|]. simpl uniques. cbn [map sum_list length].
  rewrite count_of_cons, bool_decide_true by done.
  rewrite (map_ext_in _ (fun u => count_of u col)).
  2:{ intros u Hu. apply filter_In in Hu as [_ Hu].
      rewrite count_of_cons, bool_decide_false; [done|].
      apply negb_true_iff, bool_decide_eq_false in Hu. congruence. }
  rewrite (sum_split (fun u => count_of u col) x) in IH by apply uniques_NoDup.
  unfold id. case_bool_decide as Hin; [simpl; f_equal; exact IH|].
  rewrite list_elem_of_In, uniques_In in Hin. rewrite count_of_not_in by done.
  simpl. f_equal. exact IH.
Qed.

Lemma value_counts_perm col :
  value_counts col ≡ₚ map (fun u => (u, count_of u col)) (uniques col).
Proof. unfold value_counts. rewrite sort_desc_perm. apply reverse_Permutation. Qed.

Lemma value_counts_sum col : sum_list (map snd (value_counts col)) = length col.
Proof.
  rewrite (sum_list_perm _ _ (Permutation_map snd (value_counts_perm col))), map_map.
  apply uniques_count_total.
Qed.

Lemma value_counts_In col u n :
  In (u, n) (value_counts col) <-> In u col /\ n = count_of u col.
Proof.
  rewrite <- !list_elem_of_In, (value_counts_perm col), list_elem_of_In, in_map_iff.
  setoid_rewrite uniques_In. rewrite list_elem_of_In.
  split; [by intros (v & [= -> ->] & Hv)|intros [Hu ->]; eauto].
Qed.

(** C8: [value_counts] lists each distinct value of the column exactly
    once with its number of occurrences, most frequent first, and the
    counts add up to the number of rows. *)
Theorem value_counts_spec col :
  Sorted by_count (value_counts col) /\
  (forall u n, In (u, n) (value_counts col) <-> In u col /\ n = count_of u col) /\
  List.NoDup (map fst (value_counts col)) /\
  sum_list (map snd (value_counts col)) = length col.
Proof.
  pose proof (value_counts_perm col) as Hp. split_and!.
  - apply sort_desc_sorted.
  - apply value_counts_In.
  - apply NoDup_ListNoDup. rewrite Hp, map_map. simpl. rewrite map_id.
    apply NoDup_ListNoDup, uniques_NoDup.
  - apply value_counts_sum.
Qed.

(** ** Shape of the table and of the pie *)

Lemma analyze_sentiment_label `{Polarity} f : analyze_sentiment f ∈ label_strs.
Proof.
  unfold analyze_sentiment. destruct (classify _);
    apply (bool_decide_unpack _); vm_compute; reflexivity.
Qed.

Lemma uniques_length_le col S :
  Forall (fun s => s ∈ S) col -> (length (uniques col) <= length S)%nat.
Proof.
  intros Hcol. apply NoDup_incl_length; [apply uniques_NoDup|].
  intros u Hu. rewrite uniques_In, <- list_elem_of_In in Hu.
  apply list_elem_of_In. by eapply Forall_forall in Hcol.
Qed.

(** ** [value_counts] against the documented order *)

Lemma insert_desc_app_ge p xs r :
  Forall (fun q => p.2 <= q.2)%nat xs -> insert_desc p (xs ++ r) = xs ++ insert_desc p r.
Proof.
  induction 1 as [|q xs Hq _ IH]; [done|]. simpl.
  destruct (Nat.ltb_spec q.2 p.2); [lia|]. by rewrite IH.
Qed.

Lemma insert_desc_front p r :
  Forall (fun q => q.2 < p.2)%nat r -> insert_desc p r = p :: r.
Proof.
  destruct 1 as [|q r Hq _]; [done|]. simpl.
  by destruct (Nat.ltb_spec q.2 p.2); [|lia].
Qed.

Lemma with_count_Forall k l : Forall (fun q => q.2 = k) (with_count k l).
Proof.
  apply Forall_forall. intros q Hq.
  apply list_elem_of_In, filter_In in Hq as [_ Hq]. by apply Nat.eqb_eq.
Qed.

Lemma down_lt n k : k ∈ down n -> (0 < k <= n)%nat.
Proof.
  induction n as [|n IH]; simpl; [by intros ?%not_elem_of_nil|].
  rewrite elem_of_cons. intros [->|Hk]; [lia|]. apply IH in Hk. lia.
Qed.

Lemma concat_with_count_lt k ks l :
  Forall (fun k' => k' < k)%nat ks ->
  Forall (fun q => q.2 < k)%nat (concat (map (fun k' => with_count k' l) ks)).
Proof.
  intros Hks. apply Forall_concat, Forall_map. eapply Forall_impl; [exact Hks|].
  intros k' Hk'. eapply Forall_impl; [apply with_count_Forall|]. intros q Hq. simpl in *. lia.
Qed.

(** Inserting [p] into the grouped list puts it last among the entries
    with its count. *)
Lemma insert_desc_grouped p l n :
  p.2 ∈ down n ->
  insert_desc p (concat (map (fun k => with_count k l) (down n)))
  = concat (map (fun k => with_count k (l ++ [p])) (down n)).
Proof.
  induction n as [|n IH]; simpl; [by intros ?%not_elem_of_nil|].
  unfold with_count at 1 3. rewrite List.filter_app. simpl.
  rewrite elem_of_cons. intros Hp.
  rewrite insert_desc_app_ge
    by (eapply Forall_impl; [apply with_count_Forall|]; intros q Hq;
        destruct Hp as [Hp|Hp%down_lt]; simpl in *; lia).
  destruct (Nat.eqb_spec p.2 (S n)) as [Heq|Hne].
  - rewrite insert_desc_front.
    2:{ apply concat_with_count_lt. apply Forall_forall. intros k ?%down_lt. lia. }
    rewrite <- app_assoc. simpl. do 3 f_equal. apply map_ext_in.
    intros k Hk%list_elem_of_In%down_lt. unfold with_count. rewrite List.filter_app. simpl.
    destruct (Nat.eqb_spec p.2 k); [lia|]. by rewrite app_nil_r.
  - destruct Hp as [?|Hp]; [done|]. rewrite app_nil_r. f_equal. by apply IH.
Qed.

(** Sorting the reversed first-appearance list groups it by count,
    largest first, keeping the first-appearance order in each group. *)
Lemma sort_desc_grouped l n :
  Forall (fun p => p.2 ∈ down n) l ->
  sort_desc (reverse l) = concat (map (fun k => with_count k l) (down n)).
Proof.
  induction l as [|p l IH] using rev_ind; intros Hl.
  - simpl. induction (down n) as [|k ks IHks]; simpl; [done|]. by apply IHks.
  - apply Forall_app in Hl as [Hl Hp]. rewrite Forall_singleton in Hp.
    rewrite reverse_snoc. simpl. rewrite IH by done. by apply insert_desc_grouped.
Qed.

Lemma down_intro n k : (0 < k <= n)%nat -> k ∈ down n.
Proof.
  induction n as [|n IH]; simpl; [lia|]. intros Hk. rewrite elem_of_cons.
  destruct (decide (k = S n)); [by left|right; apply IH; lia].
Qed.

Lemma count_of_pos u col : In u col -> (0 < count_of u col)%nat.
Proof.
  induction col as [|y col IH]; [done|]. rewrite count_of_cons. intros [->|Hu].
  - rewrite bool_decide_true by done. lia.
  - specialize (IH Hu). lia.
Qed.

Lemma count_of_in_down u col : In u col -> count_of u col ∈ down (length col).
Proof.
  intros Hu. apply down_intro. split; [by apply count_of_pos|].
  apply length_filter_le.
Qed.

(** C9: [value_counts] is exactly the documented order: each distinct
    value with its count, the largest count first, and equal counts in
    order of first appearance (pandas sorts stably). *)
Theorem value_counts_stable col : value_counts col = value_counts_ref col.
Proof.
  unfold value_counts, value_counts_ref. apply sort_desc_grouped.
  apply Forall_map, Forall_forall. intros u Hu. rewrite list_elem_of_In, uniques_In in Hu.
  by apply count_of_in_down.
Qed.

(** ** The pie colours *)

(** The first entry of a list sorted by [by_count] has the largest count. *)
Lemma sorted_head_max p l q : Sorted by_count (p :: l) -> In q l -> (q.2 <= p.2)%nat.
Proof.
  intros Hs Hq. apply Sorted_StronglySorted in Hs; [|intros ? ? ? H1 H2; unfold by_count in *; lia].
  inversion Hs as [|? ? _ Hall]; subst. rewrite List.Forall_forall in Hall. exact (Hall q Hq).
Qed.

(** C25: The colours follow the rank of a label, not the label: the
    label strictly more frequent than every other is the first wedge
    and is drawn green, whatever it is (a mostly negative batch gets a
    green Negative wedge). *)
Theorem pie_top_label_green col u :
  In u col -> (forall v, In v col -> v <> u -> (count_of v col < count_of u col)%nat) ->
  head (pie_wedges (value_counts col)) = Some (Wedge u (count_of u col) (lit "green")).
Proof.
  intros Hu Hmax.
  assert (Hvu : In (u, count_of u col) (value_counts col)) by (by apply value_counts_In).
  pose proof (sort_desc_sorted (reverse (map (fun u => (u, count_of u col)) (uniques col)))) as Hs.
  fold (value_counts col) in Hs.
  destruct (value_counts col) as [|[v n] l] eqn:E; [done|].
  assert (Hv : In v col /\ n = count_of v col) by (apply value_counts_In; rewrite E; by left).
  destruct Hv as [Hv ->]. destruct (decide (v = u)) as [->|Hne]; [done|].
  destruct Hvu as [[= -> _]|Hvu]; [done|].
  pose proof (sorted_head_max _ _ _ Hs Hvu). pose proof (Hmax v Hv Hne). simpl in *. lia.
Qed.

Lemma pie_wedges_lookup vc i :
  pie_wedges vc !! i
  = (fun p => Wedge p.1 p.2 (default [] (colors !! (i mod 3)))) <$> vc !! i.
Proof. unfold pie_wedges. by rewrite list_lookup_imap. Qed.

Lemma pie_wedges_pairs vc : map (fun w => (w_label w, w_count w)) (pie_wedges vc) = vc.
Proof.
  apply list_eq. intros i. rewrite list_lookup_fmap, pie_wedges_lookup.
  by destruct (vc !! i) as [[u n]|].
Qed.





(** C23: The pie has at most three wedges, one per label present, and
    no wedge has a zero count: a label that does not occur draws
    nothing. *)
Theorem pie_wedges_bounded `{Polarity} fs :
  (length (pie_wedges (value_counts (sentiments fs))) <= 3)%nat /\
  Forall (fun w => 1 <= w_count w)%nat (pie_wedges (value_counts (sentiments fs))).
Proof.
  split.
  - unfold pie_wedges. rewrite length_imap, (Permutation_length (value_counts_perm _)), length_map.
    apply (uniques_length_le _ label_strs). unfold sentiments.
    apply Forall_map, Forall_forall. intros f _. apply analyze_sentiment_label.
  - assert (Hv : Forall (fun p => 1 <= p.2)%nat (value_counts (sentiments fs))).
    { rewrite (value_counts_perm _). apply Forall_map, Forall_forall.
      intros u Hu. rewrite list_elem_of_In, uniques_In in Hu. by apply count_of_pos. }
    rewrite <- (pie_wedges_pairs (value_counts (sentiments fs))) in Hv.
    rewrite Forall_map in Hv. eapply Forall_impl; [exact Hv|]. by intros w.
Qed.

(** ** Concrete instances *)



(** A batch of two negative notes and one positive: Negative is drawn green. *)
Lemma pie_top_label_green_witness :
  head (pie_wedges (value_counts (map label_str [Negative; Negative; Positive])))
  = Some (Wedge (label_str Negative) 2 (lit "green")).
Proof.
  apply (pie_top_label_green (map label_str [Negative; Negative; Positive]) (label_str Negative)).
  - by left.
  - intros v Hv Hne. simpl in Hv. destruct Hv as [<-|[<-|[<-|[]]]]; try done.
    vm_compute. lia.
Defined.

End Aggregate.
