(* ===== verification/Summary.v ===== *)
(** * Summary: [generate_gpt_summary] (src/app.py, lines 44-61)

    The prompt is a fixed header, the first 50 items joined by ["\n"]
    ([feedback_list[:50]], stdpp's [take]) and a fixed footer
    ([summary_prompt]).  The OpenAI client is an interface, the class
    [ChatClient], whose one operation [create] stands for
    [client.chat.completions.create]: it returns a response or raises.
    The request carries the fixed parameters of lines 52-57
    ([summary_request]).  The body of the [try] is [summary_try]:
    [response.choices[0]] raises [IndexError] on an empty list of
    choices, and [.message.content.strip()] raises [AttributeError] when
    the content is [None].  [generate_gpt_summary] is the [try]/[except
    Exception as e] around it: every exception becomes the string
    ["❌ Error generating summary: "] followed by [str(e)].

    Every exception the client raises is an [Exception] here; a
    [BaseException] that is not one (such as [KeyboardInterrupt]) would
    pass the [except] and is not modelled. *)

From S2P Require Import Prelude PyStr.
From Stdlib Require Import QArith.

Module Summary.
Local Open Scope Z_scope.
Local Open Scope pfa_scope.

Record message := Message { role : pystr; content : pystr }.

(** The keyword arguments of [client.chat.completions.create].  The
    temperature is the literal [0.7], which the client sends as the JSON
    number [0.7]. *)
Record chat_request := ChatRequest {
  model : pystr;
  messages : list message;
  temperature : Q;
  max_tokens : Z
}.

(** [choice.message.content] may be [None]. *)
Record choice := Choice { msg_content : option pystr }.
Record chat_response := ChatResponse { choices : list choice }.

(** The text-generation service, as the code uses it. *)
Class ChatClient := { create : chat_request -> result chat_response }.

Definition header_line : pystr :=
  lit "You are a helpful product manager assistant. Summarize the key pain points and positive feedback from these user comments:".

Definition footer_line : pystr := lit "Provide a concise summary.".

(** Lines 45-49. *)
Definition summary_prompt (feedback_list : list pystr) : pystr :=
  (header_line ++ [10; 10]) ++ PyStr.join [10] (take 50 feedback_list) ++ ([10; 10] ++ footer_line).

(** Lines 51-58. *)
Definition summary_request (feedback_list : list pystr) : chat_request :=
  ChatRequest (lit "gpt-3.5-turbo")
    [Message (lit "user") (summary_prompt feedback_list)]
    (7 # 10)%Q 300.

Definition index_error : exn := Exn (lit "IndexError") (lit "list index out of range").

Definition none_strip_error : exn :=
  Exn (lit "AttributeError") (lit "'NoneType' object has no attribute 'strip'").

(** Line 59: [response.choices[0].message.content.strip()]. *)
Definition first_content_stripped (response : chat_response) : result pystr :=
  match choices response with
  | [] => Raise index_error
  | ch :: _ =>
      match msg_content ch with
      | None => Raise none_strip_error
      | Some c => Ok (PyStr.strip c)
      end
  end.

(** The marker of line 61: U+274C, a space, then the text. *)
Definition error_prefix : pystr := [0x274C; 32] ++ lit "Error generating summary: ".

Section WithClient.
Context `{ChatClient}.

(** Lines 50-59: the body of the [try]. *)
Definition summary_try (feedback_list : list pystr) : result pystr :=
  let* response := create (summary_request feedback_list) in
  first_content_stripped response.

(** Lines 44-61. *)
Definition generate_gpt_summary (feedback_list : list pystr) : pystr :=
  match summary_try feedback_list with
  | Ok s => s
  | Raise e => error_prefix ++ exn_msg e
  end.

End WithClient.

(** Test doubles: a service that always raises, and one that always
    answers with the given choices. *)
Definition failing_client (e : exn) : ChatClient := {| create := fun _ => Raise e |}.
Definition answering_client (chs : list choice) : ChatClient :=
  {| create := fun _ => Ok (ChatResponse chs) |}.

(** Sixty distinct items, ["item 00"] to ["item 59"], and an error the
    service may raise. *)
Definition items60 : list pystr :=
  map (fun i => lit "item " ++ [48 + Z.of_nat i / 10; 48 + Z.of_nat i mod 10]) (seq 0 60).

Definition timeout_error : exn := Exn (lit "APITimeoutError") (lit "Request timed out.").


(** ** The prompt *)

Lemma prompt_as_join fl : fl <> [] ->
  summary_prompt fl = PyStr.join [10] ([header_line; []] ++ take 50 fl ++ [[]; footer_line]).
Proof.
  intros Hne. assert (Ht : take 50 fl <> []) by (destruct fl; [done|discriminate]).
  rewrite !PyStr.join_app by (try done; by destruct (take 50 fl)).
  unfold summary_prompt. cbn [PyStr.join concat map app]. by rewrite ?app_nil_r, <- ?app_assoc.
Qed.

Lemma header_footer_no_break : PyStr.no_break header_line /\ PyStr.no_break footer_line.
Proof. split; apply (bool_decide_unpack _); vm_compute; reflexivity. Qed.

(** C10: The prompt's lines are the header, a blank line, the first 50
    items (all of them when there are fewer), each on its own line and
    in order, a blank line and the closing instruction: no item beyond
    the 50th reaches the service.  The items must hold no line boundary,
    which the text path guarantees ([Loader.text_lines_items]). *)
Theorem summary_prompt_lines fl :
  fl <> [] -> Forall PyStr.no_break fl ->
  PyStr.splitlines (summary_prompt fl) = [header_line; []] ++ take 50 fl ++ [[]; footer_line].
Proof.
  intros Hne Hfl. rewrite prompt_as_join by done.
  destruct header_footer_no_break as [Hh Hf].
  apply PyStr.splitlines_join.
  2:{ change [[]; footer_line] with ([[]] ++ [footer_line]). rewrite !app_assoc, last_snoc.
      by intros [= Hf']. }
  repeat apply Forall_app_2; repeat constructor; auto. by apply Forall_take.
Qed.

Section SummaryFacts.
Context `{ChatClient}.

(** C32: The summary depends on the first 50 items only. *)
Theorem summary_first_50 fl fl' :
  take 50 fl = take 50 fl' -> generate_gpt_summary fl = generate_gpt_summary fl'.
Proof.
  intros Heq. unfold generate_gpt_summary, summary_try, summary_request, summary_prompt.
  by rewrite Heq.
Qed.

(** C12: A service that raises yields the failure marker followed by the
    error's text, and nothing escapes the function. *)
Theorem summary_raise fl e :
  create (summary_request fl) = Raise e ->
  generate_gpt_summary fl = error_prefix ++ exn_msg e.
Proof. intros He. unfold generate_gpt_summary, summary_try. by rewrite He. Qed.

(** C11: Every outcome: either the service answered and the summary is the
    first choice's text, stripped, or the summary is the failure marker
    followed by the text of the service's exception, of the
    [IndexError] of an answer with no choice, or of the
    [AttributeError] of a choice with no text. *)
Theorem summary_outcome fl :
  (exists r ch rest c, create (summary_request fl) = Ok r /\ choices r = ch :: rest /\
     msg_content ch = Some c /\ generate_gpt_summary fl = PyStr.strip c) \/
  (exists e, generate_gpt_summary fl = error_prefix ++ exn_msg e /\
     (create (summary_request fl) = Raise e \/ e = index_error \/ e = none_strip_error)).
Proof.
  unfold generate_gpt_summary, summary_try.
  destruct (create (summary_request fl)) as [r|e] eqn:Hc; simpl; [|right; eauto].
  unfold first_content_stripped.
  destruct (choices r) as [|ch rest] eqn:Hch; [right; eauto|].
  destruct (msg_content ch) as [c|] eqn:Hm; [left; eauto 10|right; eauto].
Qed.

End SummaryFacts.


(** ** Concrete instances *)

(** The specification's scenario: of 60 items, the prompt carries the
    first 50, ["item 00"] to ["item 49"]. *)
Lemma summary_prompt_lines_witness :
  PyStr.splitlines (summary_prompt items60)
  = [header_line; []] ++ take 50 items60 ++ [[]; footer_line].
Proof.
  apply summary_prompt_lines; [discriminate|].
  apply (bool_decide_unpack _). vm_compute. reflexivity.
Defined.

Lemma summary_first_50_witness :
  @generate_gpt_summary (answering_client [Choice (Some (lit " ok "))]) items60
  = @generate_gpt_summary (answering_client [Choice (Some (lit " ok "))]) (take 50 items60).
Proof. apply summary_first_50. vm_compute. reflexivity. Defined.

Lemma summary_raise_witness :
  @generate_gpt_summary (failing_client timeout_error) items60
  = error_prefix ++ exn_msg timeout_error.
Proof. apply (@summary_raise (failing_client timeout_error)). reflexivity. Defined.

End Summary.
