(* ===== verification/App.v ===== *)
(** * App: one run of the script (src/app.py, lines 8-17 and 63-103)

    Streamlit runs the whole script top to bottom on every interaction.
    A run is modelled in a small state-and-halt monad, [run]: its state
    is the list of page elements shown so far, in order, and it ends
    normally, by [st.stop()] ([Stopped]), or by an uncaught exception
    ([Crashed]), which Streamlit shows in place of the rest of the page.
    [run] is given stdpp's [MRet] and [MBind] instances, so the script
    is written with [x ← m; k] and [m ;; k].

    - [client_init]: lines 9-10, [os.getenv("API_KEY")] and
      [OpenAI(api_key=...)], which falls back on [OPENAI_API_KEY] and
      raises [OpenAIError] when neither is set (the client library's
      behaviour).
    - [header]: lines 12-17, the title and the two input widgets, whose
      values are the run's inputs.
    - [analyze]: lines 64-103, the button handler: load, the
      [EmptyInput] halt of lines 67-69, the pie chart, the table, the
      summary and the download button, in the source's order.
    - [script]: the whole run; the handler runs when the button was
      pressed.

    The scorer and the client are the interfaces of [Sentiment] and
    [Summary]; the client is built from the key ([client_of]).  The
    spinner of line 92 is shown only while the summary is computed and
    leaves nothing on the page; [ax.set_ylabel('')] changes no wedge. *)

From S2P Require Import Prelude PyStr Utf8 Sentiment Csv Loader Aggregate Summary.
From Stdlib Require Import QArith.

Module App.
Local Open Scope Z_scope.
Import Sentiment Aggregate Summary.

Inductive element :=
| Title (s : pystr)
| FileUploader (label : pystr)
| TextArea (label : pystr)
| Button (label : pystr)
| ErrorBox (s : pystr)
| Subheader (s : pystr)
| Pyplot (ws : list wedge)
| Dataframe (rows : list (pystr * pystr))
| Markdown (s : pystr)
| DownloadButton (label : pystr) (data : list Z) (file_name : pystr) (mime : pystr).

Inductive halt := Stopped | Crashed (e : exn).

Definition run (A : Type) : Type := list element -> list element * (A + halt).

#[export] Instance run_ret : MRet run := fun A a page => (page, inl a).
#[export] Instance run_bind : MBind run := fun A B k m page =>
  match m page with
  | (page', inl a) => k a page'
  | (page', inr h) => (page', inr h)
  end.

(** [st.<element>(...)]: append one element to the page. *)
Definition show (e : element) : run unit := fun page => (page ++ [e], inl tt).

(** [st.stop()]. *)
Definition st_stop {A} : run A := fun page => (page, inr Stopped).

(** Running Python code that may raise. *)
Definition lift {A} (r : result A) : run A :=
  fun page => match r with Ok a => (page, inl a) | Raise e => (page, inr (Crashed e)) end.

Definition openai_error : exn :=
  Exn (lit "OpenAIError")
    (lit "The api_key client option must be set either by passing api_key to the client or by setting the OPENAI_API_KEY environment variable").

(** Lines 9-10: the key the client is built with. *)
Definition client_init (getenv : pystr -> option pystr) : result pystr :=
  match getenv (lit "API_KEY") with
  | Some k => Ok k
  | None =>
      match getenv (lit "OPENAI_API_KEY") with
      | Some k => Ok k
      | None => Raise openai_error
      end
  end.

Definition title_text : pystr := [0x1F9E0; 32] ++ lit "AI-powered Product Feedback Analyzer".
Definition uploader_label : pystr := [0x1F4C4; 32] ++ lit "Upload feedback (.csv or .txt)".
Definition text_area_label : pystr :=
  [0x1F4DD; 32] ++ lit "Or paste your feedback here (one per line)".
Definition button_label : pystr := [0x25B6; 0xFE0F; 32] ++ lit "Analyze Feedback".
Definition empty_input_msg : pystr :=
  [0x2757; 32] ++ lit "Please upload or paste some feedback data!".
Definition chart_heading : pystr := [0x1F4CA; 32] ++ lit "Sentiment Distribution".
Definition table_heading : pystr := [0x1F4CB; 32] ++ lit "Feedback with Sentiment".
Definition summary_heading : pystr := [0x1F9E0; 32] ++ lit "GPT-generated Summary".
Definition download_label : pystr := [0x2B07; 0xFE0F; 32] ++ lit "Download Analyzed Feedback CSV".

(** Lines 12-17 and the button of line 64. *)
Definition header : run unit :=
  show (Title title_text);;
  show (FileUploader uploader_label);;
  show (TextArea text_area_label);;
  show (Button button_label).

(** [df.to_csv(index=False)]: the header row, then one row per record. *)
Definition to_csv (df : DataFrame) : pystr :=
  Csv.to_csv_rows ([lit "Feedback"; lit "Sentiment"] :: map (fun p => [p.1; p.2]) (df_rows df)).

(** Lines 65-91: load, the [EmptyInput] halt, the chart, the table and
    the summary's heading; the run goes on with the items. *)
Definition analyze_pre `{Polarity} (upload_file : option Loader.upload) (text_input : pystr)
    : run (list pystr) :=
  feedbacks ← lift (Loader.load_feedback upload_file text_input);
  (if bool_decide (feedbacks = []) then show (ErrorBox empty_input_msg);; st_stop
   else mret tt);;
  let df := make_df feedbacks in
  show (Subheader chart_heading);;
  show (Pyplot (pie_wedges (value_counts (Sentiment df))));;
  show (Subheader table_heading);;
  show (Dataframe (df_rows df));;
  show (Subheader summary_heading);;
  mret feedbacks.

(** Lines 94-103: the summary and the download button. *)
Definition analyze_post `{Polarity} (feedbacks : list pystr) (summary : pystr) : run unit :=
  let df := make_df feedbacks in
  show (Markdown summary);;
  csv ← lift (Utf8.encode (to_csv df));
  show (DownloadButton download_label csv (lit "analyzed_feedback.csv") (lit "text/csv")).

(** Lines 64-103: the button handler, with the summary of line 93
    between the two parts. *)
Definition analyze `{Polarity} `{ChatClient} (upload_file : option Loader.upload)
    (text_input : pystr) : run unit :=
  feedbacks ← analyze_pre upload_file text_input;
  analyze_post feedbacks (generate_gpt_summary feedbacks).

(** The whole script, from an empty page. *)
Definition script `{Polarity} (client_of : pystr -> ChatClient)
    (getenv : pystr -> option pystr) (upload_file : option Loader.upload)
    (text_input : pystr) (clicked : bool) : list element * (unit + halt) :=
  (key ← lift (client_init getenv);
   header;;
   if clicked then @analyze _ (client_of key) upload_file text_input else mret tt) [].


(** A concrete configuration for the instances below: an environment
    with [API_KEY] set and one with no key, a table scorer, a service
    that answers and one that is down, and pasted text with a blank
    line. *)
Definition demo_env (v : pystr) : option pystr :=
  if bool_decide (v = lit "API_KEY") then Some (lit "sk-demo") else None.
Definition no_env (v : pystr) : option pystr := None.
Definition demo_polarity : Polarity :=
  table_polarity [(lit "Great product!", 1%Q); (lit "Terrible support.", (-1)%Q)].
Definition demo_client (key : pystr) : ChatClient :=
  answering_client [Choice (Some (lit " Mixed feedback. "))].
Definition down_client (key : pystr) : ChatClient := failing_client timeout_error.
Definition demo_text : pystr :=
  lit "Great product!" ++ [10] ++ lit "Terrible support." ++ [10; 32; 32; 10] ++ lit "It's okay.".
Definition demo_items : list pystr := [lit "Great product!"; lit "Terrible support."; lit "It's okay."].

(** ** The run, step by step *)

Abbreviation header_page :=
  [Title title_text; FileUploader uploader_label; TextArea text_area_label; Button button_label].

Lemma header_run page : header page = (page ++ header_page, inl tt).
Proof. unfold header, mbind, run_bind, show. by rewrite <- !app_assoc. Qed.

Lemma script_clicked `{Polarity} client_of getenv u t k :
  client_init getenv = Ok k ->
  script client_of getenv u t true = @analyze _ (client_of k) u t header_page.
Proof. intros Hk. unfold script, mbind, run_bind, lift at 1. by rewrite Hk, header_run. Qed.

Lemma analyze_pipeline `{Polarity} `{ChatClient} u t fs csv page :
  Loader.load_feedback u t = Ok fs -> fs <> [] -> Utf8.encode (to_csv (make_df fs)) = Ok csv ->
  analyze u t page =
  (page ++ [Subheader chart_heading; Pyplot (pie_wedges (value_counts (sentiments fs)));
            Subheader table_heading; Dataframe (map (fun f => (f, analyze_sentiment f)) fs);
            Subheader summary_heading; Markdown (generate_gpt_summary fs);
            DownloadButton download_label csv (lit "analyzed_feedback.csv") (lit "text/csv")], inl tt).
Proof.
  intros Hl Hne He. unfold analyze, analyze_pre, analyze_post, mbind, run_bind, lift. rewrite Hl, bool_decide_false by done.
  unfold mret, run_ret, show. rewrite He.
  change (df_rows (make_df fs)) with (zip fs (map analyze_sentiment fs)).
  rewrite zip_map_r. by rewrite <- !app_assoc.
Qed.

Lemma label_str_scalar l : Forall Utf8.scalar (label_str l).
Proof. destruct l; apply (bool_decide_unpack _); vm_compute; reflexivity. Qed.

(** The download text holds scalar values only when the items do. *)
Lemma to_csv_scalar `{Polarity} fs :
  Forall (Forall Utf8.scalar) fs -> Forall Utf8.scalar (to_csv (make_df fs)).
Proof.
  intros Hfs. unfold to_csv. change (df_rows (make_df fs)) with (zip fs (map analyze_sentiment fs)).
  rewrite zip_map_r, map_map.
  apply Csv.to_csv_rows_Forall; [split; [lia|reflexivity]..|].
  constructor; [apply (bool_decide_unpack _); vm_compute; reflexivity|].
  apply Forall_map. eapply Forall_impl; [exact Hfs|]. intros f Hf. simpl.
  repeat constructor; first [done|apply label_str_scalar].
Qed.


(** ** What a run shows *)

(** C1: A pressed button with input that yields items shows, after the
    header, exactly: the chart heading and the pie of the label counts,
    the table heading and one row per item in input order, the summary
    heading and the summary, and the download button carrying the UTF-8
    bytes of the CSV; the run then ends normally.  The items must hold
    scalar values, as every decoded text does. *)
Theorem run_complete `{Polarity} client_of getenv u t k fs :
  client_init getenv = Ok k -> Loader.load_feedback u t = Ok fs -> fs <> [] ->
  Forall (Forall Utf8.scalar) fs ->
  exists csv, Utf8.encode (to_csv (make_df fs)) = Ok csv /\
  script client_of getenv u t true =
  (header_page ++
     [Subheader chart_heading; Pyplot (pie_wedges (value_counts (sentiments fs)));
      Subheader table_heading; Dataframe (map (fun f => (f, analyze_sentiment f)) fs);
      Subheader summary_heading; Markdown (@generate_gpt_summary (client_of k) fs);
      DownloadButton download_label csv (lit "analyzed_feedback.csv") (lit "text/csv")],
   inl tt).
Proof.
  intros Hk Hl Hne Hfs.
  destruct (Utf8.utf8_roundtrip _ (to_csv_scalar fs Hfs)) as (csv & He & _).
  exists csv. split; [done|]. rewrite (script_clicked _ _ _ _ _ Hk).
  by apply analyze_pipeline.
Qed.

(** C4: EmptyInput: when the loader yields no item, the run shows the
    error box after the header and stops; no chart, table, summary or
    download is produced and the client is never called. *)
Theorem run_empty_input `{Polarity} client_of getenv u t k :
  client_init getenv = Ok k -> Loader.load_feedback u t = Ok [] ->
  script client_of getenv u t true = (header_page ++ [ErrorBox empty_input_msg], inr Stopped).
Proof.
  intros Hk Hl. rewrite (script_clicked _ _ _ _ _ Hk).
  unfold analyze, analyze_pre, analyze_post, mbind, run_bind, lift. by rewrite Hl.
Qed.

(** C5: SummaryGenerationFailure: a service that raises [e] puts the
    failure marker and [str(e)] in place of the summary, and the chart,
    the table and the download button are still shown. *)
Theorem run_summary_failure `{Polarity} client_of getenv u t k fs e :
  client_init getenv = Ok k -> (forall req, @create (client_of k) req = Raise e) ->
  Loader.load_feedback u t = Ok fs -> fs <> [] -> Forall (Forall Utf8.scalar) fs ->
  exists csv,
  script client_of getenv u t true =
  (header_page ++
     [Subheader chart_heading; Pyplot (pie_wedges (value_counts (sentiments fs)));
      Subheader table_heading; Dataframe (map (fun f => (f, analyze_sentiment f)) fs);
      Subheader summary_heading; Markdown (error_prefix ++ exn_msg e);
      DownloadButton download_label csv (lit "analyzed_feedback.csv") (lit "text/csv")],
   inl tt).
Proof.
  intros Hk Hc Hl Hne Hfs.
  destruct (Utf8.utf8_roundtrip _ (to_csv_scalar fs Hfs)) as (csv & He & _).
  exists csv. rewrite (script_clicked _ _ _ _ _ Hk), (@analyze_pipeline _ (client_of k) u t fs csv) by done.
  unfold generate_gpt_summary, summary_try. by rewrite Hc.
Qed.

(** C29: A loader that raises (a text upload that is not UTF-8, a CSV file
    with no rows) ends the run with that exception right after the
    header: nothing of the analysis is shown. *)
Theorem run_load_crash `{Polarity} client_of getenv u t k e :
  client_init getenv = Ok k -> Loader.load_feedback u t = Raise e ->
  script client_of getenv u t true = (header_page, inr (Crashed e)).
Proof.
  intros Hk Hl. rewrite (script_clicked _ _ _ _ _ Hk).
  unfold analyze, analyze_pre, analyze_post, mbind, run_bind, lift. by rewrite Hl.
Qed.

(** C24: With neither [API_KEY] nor [OPENAI_API_KEY] set, building the
    client at start-up raises: every run, pressed or not, crashes before
    even the title is shown, although the specification says the
    missing credential surfaces only when the request is attempted. *)
Theorem startup_without_key `{Polarity} client_of getenv u t clicked :
  getenv (lit "API_KEY") = None -> getenv (lit "OPENAI_API_KEY") = None ->
  script client_of getenv u t clicked = ([], inr (Crashed openai_error)).
Proof. intros H1 H2. unfold script, client_init, mbind, run_bind, lift. by rewrite H1, H2. Qed.


(** ** The downloaded file *)

Lemma to_csv_make_df `{Polarity} fs :
  to_csv (make_df fs)
  = Csv.to_csv_rows ([lit "Feedback"; lit "Sentiment"] :: map (fun f => [f; analyze_sentiment f]) fs).
Proof.
  unfold to_csv. change (df_rows (make_df fs)) with (zip fs (map analyze_sentiment fs)).
  by rewrite zip_map_r, map_map.
Qed.

(** The downloaded text parses back to the header and the records. *)
(** The rows written for the items: the header and one (item, label)
    row each, every field readable back when the items are. *)
Lemma rows_safe `{Polarity} fs :
  Forall (fun f => Csv.csv_safe f = true) fs ->
  Forall Csv.all_safe ([lit "Feedback"; lit "Sentiment"] :: map (fun f => [f; analyze_sentiment f]) fs).
Proof.
  intros Hfs. constructor; [by repeat constructor|]. apply Forall_map.
  eapply Forall_impl; [exact Hfs|]. intros f Hf. repeat constructor; [done|].
  unfold analyze_sentiment. by destruct (classify _).
Qed.

Lemma to_csv_reads_back `{Polarity} fs :
  Forall (fun f => Csv.csv_safe f = true) fs ->
  Csv.parse_csv (to_csv (make_df fs))
  = [lit "Feedback"; lit "Sentiment"] :: map (fun f => [f; analyze_sentiment f]) fs.
Proof. intros Hfs. rewrite to_csv_make_df. by apply Csv.rows_read, rows_safe. Qed.

Lemma download_read_back `{Polarity} client_of getenv u t k fs :
  client_init getenv = Ok k -> Loader.load_feedback u t = Ok fs -> fs <> [] ->
  Forall (fun f => Forall Utf8.scalar f /\ Csv.csv_safe f = true) fs ->
  exists csv text,
    In (DownloadButton download_label csv (lit "analyzed_feedback.csv") (lit "text/csv"))
       (script client_of getenv u t true).1 /\
    Utf8.decode csv = Ok text /\
    Csv.parse_csv text
    = [lit "Feedback"; lit "Sentiment"] :: map (fun f => [f; analyze_sentiment f]) fs.
Proof.
  intros Hk Hl Hne Hfs.
  assert (Hsc : Forall (Forall Utf8.scalar) fs) by (eapply Forall_impl; [exact Hfs|]; naive_solver).
  destruct (Utf8.utf8_roundtrip _ (to_csv_scalar fs Hsc)) as (csv & He & Hd).
  exists csv, (to_csv (make_df fs)). split_and!; [|done|].
  - rewrite (script_clicked _ _ _ _ _ Hk), (analyze_pipeline u t fs csv) by done.
    cbn [fst]. apply in_or_app. right. simpl. tauto.
  - apply to_csv_reads_back. eapply Forall_impl; [exact Hfs|]. naive_solver.
Qed.


(** C3: The specification's round trip: the bytes of the download button
    decode as UTF-8 and parse back to the header row followed by one
    [(Feedback, Sentiment)] row per item, in order.  It needs every item
    to be written so that it reads back ([Csv.csv_safe]: no bare [\r]),
    which holds of every item of the text paths. *)
Theorem download_roundtrip `{Polarity} client_of getenv u t k fs :
  client_init getenv = Ok k -> Loader.load_feedback u t = Ok fs -> fs <> [] ->
  Forall (fun f => Forall Utf8.scalar f /\ Csv.csv_safe f = true) fs ->
  exists csv text,
    In (DownloadButton download_label csv (lit "analyzed_feedback.csv") (lit "text/csv"))
       (script client_of getenv u t true).1 /\
    Utf8.decode csv = Ok text /\
    Csv.parse_csv text
    = [lit "Feedback"; lit "Sentiment"] :: map (fun f => [f; analyze_sentiment f]) fs.
Proof. apply download_read_back. Qed.

(** C17: On pasted text the round trip needs nothing of the text but that it
    hold scalar values and not be blank: [splitlines] leaves no [\r] in
    an item, so every item is written so that it reads back. *)
Theorem pasted_download_roundtrip `{Polarity} client_of getenv t k :
  client_init getenv = Ok k -> Forall Utf8.scalar t -> ~ PyStr.all_space t ->
  exists csv text,
    In (DownloadButton download_label csv (lit "analyzed_feedback.csv") (lit "text/csv"))
       (script client_of getenv None t true).1 /\
    Utf8.decode csv = Ok text /\
    Csv.parse_csv text
    = [lit "Feedback"; lit "Sentiment"] :: map (fun f => [f; analyze_sentiment f]) (Loader.text_lines t).
Proof.
  intros Hk Hsc Hne.
  assert (Hfs : Forall (fun f => Forall Utf8.scalar f /\ Csv.csv_safe f = true) (Loader.text_lines t)).
  { pose proof (Loader.text_lines_chars _ t (PyStr.splitlines_no_break t)) as Hnb.
    assert (Hs : Forall (Forall Utf8.scalar) (Loader.text_lines t)).
    { apply Loader.text_lines_chars, PyStr.splitlines_Forall.
      eapply Forall_impl; [exact Hsc|]. auto. }
    apply Forall_and; split; [done|]. eapply Forall_impl; [exact Hnb|].
    intros f Hf. apply Csv.no_cr_safe. eapply Forall_impl; [exact Hf|]. by intros c Hc ->. }
  assert (Hl : Loader.load_feedback None t = Ok (Loader.text_lines t)) by done.
  assert (Hne' : Loader.text_lines t <> []) by (intros Hn; by apply Hne, Loader.text_lines_nil_space).
  exact (download_read_back client_of getenv None t k _ Hk Hl Hne' Hfs).
Qed.


(** C30: A [.csv] upload of blank text (spaces, tabs and line breaks
    only, or nothing) does not reach the EmptyInput message:
    [pd.read_csv] raises [EmptyDataError] and the run crashes after the
    header, whereas the same text pasted stops with the message. *)
Theorem empty_csv_upload_crashes `{Polarity} client_of getenv k n bs s t :
  client_init getenv = Ok k -> PyStr.endswith n (lit ".csv") = true ->
  Utf8.decode (Loader.skip_bom bs) = Ok s -> Forall Loader.blank_char s ->
  script client_of getenv (Some (Loader.Upload n bs)) t true
  = (header_page, inr (Crashed (Exn (lit "EmptyDataError") (lit "No columns to parse from file")))) /\
  script client_of getenv None s true = (header_page ++ [ErrorBox empty_input_msg], inr Stopped).
Proof.
  intros Hk Hn Hd Hs. rewrite !(script_clicked _ _ _ _ _ Hk).
  unfold analyze, analyze_pre, analyze_post, mbind, run_bind, lift.
  rewrite (Loader.load_csv_blank _ _ _ _ Hn Hd Hs). split; [done|].
  unfold Loader.load_feedback. by rewrite Loader.text_lines_space_nil by (by apply Loader.blank_all_space).
Qed.

(** ** Concrete instances *)

Abbreviation demo_page csv summary :=
  (header_page ++
     [Subheader chart_heading;
      Pyplot (pie_wedges (value_counts (@sentiments demo_polarity demo_items)));
      Subheader table_heading;
      Dataframe (map (fun f => (f, @analyze_sentiment demo_polarity f)) demo_items);
      Subheader summary_heading; Markdown summary;
      DownloadButton download_label csv (lit "analyzed_feedback.csv") (lit "text/csv")]).

Lemma run_complete_witness :
  exists csv, Utf8.encode (to_csv (@make_df demo_polarity demo_items)) = Ok csv /\
  @script demo_polarity demo_client demo_env None demo_text true
  = (demo_page csv (@generate_gpt_summary (demo_client (lit "sk-demo")) demo_items), inl tt).
Proof.
  apply (@run_complete demo_polarity demo_client demo_env None demo_text (lit "sk-demo") demo_items);
    [reflexivity|vm_compute; reflexivity|discriminate|].
  apply (bool_decide_unpack _). vm_compute. reflexivity.
Defined.

Lemma run_empty_input_witness :
  @script demo_polarity demo_client demo_env None [32; 10; 9] true
  = (header_page ++ [ErrorBox empty_input_msg], inr Stopped).
Proof. apply (run_empty_input _ _ _ _ (lit "sk-demo")); vm_compute; reflexivity. Defined.

Lemma run_summary_failure_witness :
  exists csv, @script demo_polarity down_client demo_env None demo_text true
  = (demo_page csv (error_prefix ++ exn_msg timeout_error), inl tt).
Proof.
  apply (@run_summary_failure demo_polarity down_client demo_env None demo_text (lit "sk-demo")
           demo_items timeout_error); [reflexivity|reflexivity|vm_compute; reflexivity|discriminate|].
  apply (bool_decide_unpack _). vm_compute. reflexivity.
Defined.

(** An empty file, and a file of two blank lines saved with a mark. *)
Lemma empty_csv_upload_crashes_witness :
  @script demo_polarity demo_client demo_env (Some (Loader.Upload (lit "feedback.csv") [239; 187; 191; 32; 10; 10]%Z)) [] true
  = (header_page, inr (Crashed (Exn (lit "EmptyDataError") (lit "No columns to parse from file")))) /\
  @script demo_polarity demo_client demo_env None [32; 10; 10]%Z true
  = (header_page ++ [ErrorBox empty_input_msg], inr Stopped).
Proof.
  apply (@empty_csv_upload_crashes demo_polarity demo_client demo_env (lit "sk-demo") (lit "feedback.csv"));
    [reflexivity|reflexivity|vm_compute; reflexivity|].
  repeat constructor; lia.
Defined.

Lemma run_load_crash_witness :
  @script demo_polarity demo_client demo_env (Some (Loader.Upload (lit "notes.txt") [255])) [] true
  = (header_page, inr (Crashed (Exn (lit "UnicodeDecodeError")
       (lit "'utf-8' codec can't decode byte 0xff in position 0: invalid start byte")))).
Proof. apply (run_load_crash _ _ _ _ (lit "sk-demo")); vm_compute; reflexivity. Defined.

Lemma startup_without_key_witness :
  @script demo_polarity demo_client no_env None demo_text true = ([], inr (Crashed openai_error)).
Proof. apply startup_without_key; reflexivity. Defined.

Lemma download_roundtrip_witness :
  exists csv text,
    In (DownloadButton download_label csv (lit "analyzed_feedback.csv") (lit "text/csv"))
       (@script demo_polarity demo_client demo_env None demo_text true).1 /\
    Utf8.decode csv = Ok text /\
    Csv.parse_csv text
    = [lit "Feedback"; lit "Sentiment"] :: map (fun f => [f; @analyze_sentiment demo_polarity f]) demo_items.
Proof.
  apply (@download_roundtrip demo_polarity demo_client demo_env None demo_text (lit "sk-demo"));
    [reflexivity|vm_compute; reflexivity|discriminate|].
  apply (bool_decide_unpack _). vm_compute. reflexivity.
Defined.

Lemma pasted_download_roundtrip_witness :
  exists csv text,
    In (DownloadButton download_label csv (lit "analyzed_feedback.csv") (lit "text/csv"))
       (@script demo_polarity demo_client demo_env None demo_text true).1 /\
    Utf8.decode csv = Ok text /\
    Csv.parse_csv text
    = [lit "Feedback"; lit "Sentiment"]
        :: map (fun f => [f; @analyze_sentiment demo_polarity f]) (Loader.text_lines demo_text).
Proof.
  apply (@pasted_download_roundtrip demo_polarity demo_client demo_env demo_text (lit "sk-demo"));
    [reflexivity|..]; apply (bool_decide_unpack _); vm_compute; reflexivity.
Defined.

End App.
