(* ===== verification/Session.v ===== *)
(** * Session: a sequence of interactions (src/app.py, lines 16-17 and 64)

    Streamlit keeps the values of the widgets between runs and nothing
    else of the script: [st.file_uploader] (line 16) returns the file
    last uploaded, [st.text_area] (line 17) the text last committed, and
    [st.button] (line 64) returns [True] only in the run its click
    triggered.  An interaction ([event]) commits the widget changes
    made since the last run, together with a click if there was one,
    and reruns the whole script ([rerun]).  A session is the fold of
    [rerun] over the interactions ([session]); [steps] is the same as a
    step relation ([session_steps]).  The uploader refuses a file whose
    name does not end in ".csv" or ".txt", in any case ([accepted], the
    [type] argument of line 16).

    The theorems show what the specification's "each run replaces the
    prior display" means for a session (the analysis disappears at the
    next interaction without a click, by induction on [steps]), and
    that the uploader's filter and the loader's test of the name
    disagree on case. *)

From S2P Require Import Prelude PyStr Utf8 Sentiment Csv Loader Aggregate Summary App.

Module Session.
Import Sentiment Aggregate Summary App.

(** The widget values Streamlit keeps between runs. *)
Record widgets := Widgets { w_upload : option Loader.upload; w_text : pystr }.

(** The state before any interaction: no file and an empty text area. *)
Definition initial : widgets := Widgets None [].

(** One interaction: a new value of the uploader (a file, or [None]
    when it is removed), a newly committed text, and whether the button
    was clicked. *)
Record event := Event {
  ev_upload : option (option Loader.upload);
  ev_text : option pystr;
  ev_click : bool
}.

(** [type=["csv", "txt"]] (line 16).  Streamlit lowercases the types
    and hands them to the browser's file picker and drop zone, which
    compare the file name's ending without regard to case.  Lowering
    ASCII letters is exact here: no other character lowercases to a
    letter of ".csv" or ".txt". *)
Definition uploader_types : list pystr := [lit ".csv"; lit ".txt"].

Definition ascii_lower (c : Z) : Z := if (65 <=? c)%Z && (c <=? 90)%Z then (c + 32)%Z else c.

Definition accepted (f : Loader.upload) : bool :=
  existsb (PyStr.endswith (map ascii_lower (Loader.name f))) uploader_types.

(** The widgets after an interaction: a file of another type is
    refused and the uploader keeps its value; removing the file gives
    [None]. *)
Definition update (w : widgets) (e : event) : widgets :=
  Widgets
    (match ev_upload e with
     | Some (Some f) => if accepted f then Some f else w_upload w
     | Some None => None
     | None => w_upload w
     end)
    (default (w_text w) (ev_text e)).

Section WithConfig.
Context `{Polarity} (client_of : pystr -> ChatClient) (getenv : pystr -> option pystr).

(** The run an interaction triggers, on the updated widget values. *)
Definition rerun (w : widgets) (e : event) : widgets * (list element * (unit + halt)) :=
  let w' := update w e in (w', script client_of getenv (w_upload w') (w_text w') (ev_click e)).

(** The runs of a session, one per interaction, in order. *)
Fixpoint session (w : widgets) (es : list event) : list (list element * (unit + halt)) :=
  match es with
  | [] => []
  | e :: es' => let '(w', r) := rerun w e in r :: session w' es'
  end.

(** The same as a step relation: from [w], the interactions [es] lead
    to [w'] through the runs [rs]. *)
Inductive steps : widgets -> list event -> widgets -> list (list element * (unit + halt)) -> Prop :=
| steps_nil w : steps w [] w []
| steps_cons w e es w'' rs :
    steps (update w e) es w'' rs ->
    steps w (e :: es) w'' ((rerun w e).2 :: rs).

End WithConfig.

(** A demo session: paste the demo text, click, blank the text and
    click again, then upload a file without clicking. *)
Definition demo_events : list event :=
  [Event None (Some demo_text) false; Event None None true; Event None (Some [32%Z]) true;
   Event (Some (Some (Loader.Upload (lit "notes.txt") (lit "Fine")))) None false].

(** ** Sessions *)

Lemma session_steps `{Polarity} client_of getenv w es :
  steps client_of getenv w es (foldl update w es) (session client_of getenv w es).
Proof. revert w. induction es as [|e es IH]; intros w; simpl; constructor. exact (IH (update w e)). Qed.

(** C18: Every run triggered without a click shows the header only: the
    chart, the table, the summary and the download of an earlier run
    disappear at the next interaction (by induction on the steps). *)
Theorem steps_results_vanish `{Polarity} client_of getenv k w es w' rs :
  client_init getenv = Ok k -> steps client_of getenv w es w' rs ->
  Forall2 (fun e r => ev_click e = false -> r = (header_page, inl tt)) es rs.
Proof.
  intros Hk. induction 1 as [w|w e es w'' rs _ IH]; constructor; [|done].
  intros Hc. unfold rerun, script. simpl. rewrite Hc.
  unfold mbind, run_bind, lift at 1. by rewrite Hk, header_run.
Qed.

(** ** The uploader's file *)

(** C31: The uploader accepts a name ending in ".CSV" (or ".Csv"), but
    [load_feedback] tests [name.endswith('.csv')] with case, so the
    file goes down the text branch: every line is an item, its header
    line included, which is analysed and summarised with the others. *)
Theorem uppercase_csv_read_as_text n bs t h fs :
  PyStr.endswith (map ascii_lower n) (lit ".csv") = true ->
  PyStr.endswith n (lit ".csv") = false ->
  Forall Loader.item_ok (h :: fs) -> Utf8.decode bs = Ok (PyStr.join [10%Z] (h :: fs)) ->
  accepted (Loader.Upload n bs) = true /\
  Loader.load_feedback (Some (Loader.Upload n bs)) t = Ok (h :: fs).
Proof.
  intros Hl Hn Hi Hd. split.
  - unfold accepted. cbn [existsb uploader_types Loader.name]. by rewrite Hl.
  - unfold Loader.load_feedback. cbn [Loader.name Loader.data]. rewrite Hn, Hd. cbn [bind].
    by rewrite Loader.join_lines.
Qed.

(** "FEEDBACK.CSV" with a header line and one note. *)
Lemma uppercase_csv_read_as_text_witness :
  accepted (Loader.Upload (lit "FEEDBACK.CSV") (lit "Feedback" ++ [10%Z] ++ lit "Great")) = true /\
  Loader.load_feedback (Some (Loader.Upload (lit "FEEDBACK.CSV") (lit "Feedback" ++ [10%Z] ++ lit "Great"))) []
  = Ok [lit "Feedback"; lit "Great"].
Proof.
  apply uppercase_csv_read_as_text; [reflexivity|reflexivity| |vm_compute; reflexivity].
  apply (bool_decide_unpack _). vm_compute. reflexivity.
Defined.

Lemma steps_results_vanish_witness :
  Forall2 (fun e r => ev_click e = false -> r = (header_page, inl tt)) demo_events
    (session (H:=demo_polarity) demo_client demo_env initial demo_events).
Proof.
  apply (@steps_results_vanish demo_polarity demo_client demo_env (lit "sk-demo") initial
           demo_events (foldl update initial demo_events));
    [reflexivity|apply session_steps].
Defined.

End Session.
