(* ===== verification/Pipeline.v ===== *)
(** * Pipeline: the run against the specification's pipeline

    The specification (sections 2-4 and 7) describes one run as a
    function of the loaded items: either [EmptyInput], or the
    AnalyzedRecord sequence (one record per item, in order), the label
    counts, the summary text and the exported rows (header, then one
    row per record); a loader failure is fatal.  [spec_run] is that
    abstract pipeline, over any classifier and summarizer.

    [observe] reads a finished run of the script ([App.script]) back as
    such an outcome: the records from the table, the counts from the
    pie's wedges, the summary from the markdown element, and the export
    by decoding and parsing the download button's bytes.  The theorem
    [script_refines_spec] shows the script refines the specification:
    the observed outcome of a run is the abstract pipeline applied to
    what the loader returned, with TextBlob's classification and the
    summary generator.  The pie's colours and the page's layout are
    not part of the abstract outcome. *)

From S2P Require Import Prelude PyStr Utf8 Sentiment Csv Loader Aggregate Summary App.

Module Pipeline.
Import Sentiment Aggregate Summary App.

(** The specification's outcome of one run. *)
Inductive outcome :=
| EmptyInput
| Analyzed (records : list (pystr * label)) (counts : nat * nat * nat)
           (summary : pystr) (export : list (list pystr))
| Failed (e : exn).

(** Positive, Neutral and Negative counts of a record sequence. *)
Definition label_counts (records : list (pystr * label)) : nat * nat * nat :=
  let c l := length (List.filter (fun r => bool_decide (r.2 = l)) records) in
  (c Positive, c Neutral, c Negative).

(** The abstract pipeline: load, classify each item, count, summarize,
    export. *)
Definition spec_run (loaded : result (list pystr)) (cls : pystr -> label)
    (summarize : list pystr -> pystr) : outcome :=
  match loaded with
  | Raise e => Failed e
  | Ok [] => EmptyInput
  | Ok items =>
      let records := map (fun f => (f, cls f)) items in
      Analyzed records (label_counts records) (summarize items)
        ([lit "Feedback"; lit "Sentiment"] :: map (fun r => [r.1; label_str r.2]) records)
  end.

(** ** Reading a page back *)

Definition label_of (s : pystr) : option label :=
  if bool_decide (s = label_str Positive) then Some Positive
  else if bool_decide (s = label_str Neutral) then Some Neutral
  else if bool_decide (s = label_str Negative) then Some Negative
  else None.

(** The total the pie shows for one label. *)
Definition wedge_total (ws : list wedge) (u : pystr) : nat :=
  sum_list (map w_count (List.filter (fun w => bool_decide (w_label w = u)) ws)).

Definition observe (r : list element * (unit + halt)) : option outcome :=
  match r with
  | (_, inr (Crashed e)) => Some (Failed e)
  | (page, inr Stopped) =>
      match last page with Some (ErrorBox _) => Some EmptyInput | _ => None end
  | (page, inl _) =>
      match drop 4 page with
      | [Subheader _; Pyplot ws; Subheader _; Dataframe rows; Subheader _; Markdown s;
         DownloadButton _ data _ _] =>
          records ← mapM (fun '(f, c) => pair f <$> label_of c) rows;
          match Utf8.decode data with
          | Ok text =>
              Some (Analyzed records
                      (wedge_total ws (label_str Positive), wedge_total ws (label_str Neutral),
                       wedge_total ws (label_str Negative))
                      s (Csv.parse_csv text))
          | Raise _ => None
          end
      | _ => None
      end
  end.


(** ** The table *)

Lemma label_of_str l : label_of (label_str l) = Some l.
Proof. by destruct l; vm_compute. Qed.

Lemma table_records `{Polarity} fs :
  mapM (fun '(f, c) => pair f <$> label_of c) (map (fun f => (f, analyze_sentiment f)) fs)
  = Some (map (fun f => (f, classify (polarity f))) fs).
Proof.
  induction fs as [|f fs IH]; [done|]. simpl.
  change (analyze_sentiment f) with (label_str (classify (polarity f))).
  rewrite label_of_str, IH. done.
Qed.

(** ** The pie's totals *)

Definition pair_total (l : list (pystr * nat)) (u : pystr) : nat :=
  sum_list (map snd (List.filter (fun p => bool_decide (p.1 = u)) l)).

Lemma wedge_total_pairs ws u :
  wedge_total ws u = pair_total (map (fun w => (w_label w, w_count w)) ws) u.
Proof.
  unfold wedge_total, pair_total. induction ws as [|w ws IH]; [done|]. simpl.
  case_bool_decide; simpl; by rewrite IH.
Qed.

Lemma pair_total_perm l1 l2 u : l1 ≡ₚ l2 -> pair_total l1 u = pair_total l2 u.
Proof.
  unfold pair_total. induction 1; simpl; repeat case_bool_decide; simpl; lia.
Qed.

Lemma pair_total_nodup (f : pystr -> nat) U u :
  List.NoDup U -> pair_total (map (fun v => (v, f v)) U) u = if bool_decide (u ∈ U) then f u else 0%nat.
Proof.
  unfold pair_total. induction 1 as [|v U Hv _ IH]; [done|]. cbn [map List.filter].
  destruct (decide (v = u)) as [<-|Hvu].
  - rewrite (bool_decide_true (v = v)), (bool_decide_true (v ∈ v :: U)) by constructor.
    cbn [map sum_list snd]. rewrite IH, bool_decide_false by (by rewrite list_elem_of_In).
    unfold id. lia.
  - rewrite (bool_decide_false (v = u)), IH by done.
    rewrite (bool_decide_ext (u ∈ v :: U) (u ∈ U)); [done|].
    rewrite elem_of_cons. naive_solver.
Qed.

(** The pie shows, for each label, its number of rows. *)
Lemma wedge_total_count col u :
  wedge_total (pie_wedges (value_counts col)) u = count_of u col.
Proof.
  rewrite wedge_total_pairs, pie_wedges_pairs, (pair_total_perm _ _ _ (value_counts_perm col)).
  rewrite pair_total_nodup by apply uniques_NoDup.
  case_bool_decide as Hin; [done|]. rewrite list_elem_of_In, uniques_In in Hin.
  by rewrite count_of_not_in.
Qed.

Lemma count_of_labels `{Polarity} fs l :
  count_of (label_str l) (sentiments fs)
  = length (List.filter (fun r => bool_decide (r.2 = l)) (map (fun f => (f, classify (polarity f))) fs)).
Proof.
  induction fs as [|f fs IH]; [done|]. unfold sentiments in *. simpl map.
  rewrite count_of_cons, IH. simpl. unfold analyze_sentiment.
  destruct (decide (classify (polarity f) = l)) as [->|Hne].
  - by rewrite !bool_decide_true.
  - rewrite !bool_decide_false; [done..|]. by intros ?%label_str_inj.
Qed.


(** ** Refinement *)

Lemma observe_pipeline `{Polarity} `{ChatClient} fs csv :
  fs <> [] -> Utf8.decode csv = Ok (to_csv (make_df fs)) ->
  Csv.parse_csv (to_csv (make_df fs))
  = [lit "Feedback"; lit "Sentiment"] :: map (fun f => [f; analyze_sentiment f]) fs ->
  observe
    (header_page ++
       [Subheader chart_heading; Pyplot (pie_wedges (value_counts (sentiments fs)));
        Subheader table_heading; Dataframe (map (fun f => (f, analyze_sentiment f)) fs);
        Subheader summary_heading; Markdown (generate_gpt_summary fs);
        DownloadButton download_label csv (lit "analyzed_feedback.csv") (lit "text/csv")], inl tt)
  = Some (spec_run (Ok fs) (fun f => classify (polarity f)) generate_gpt_summary).
Proof.
  intros Hne Hd Hp. cbn [observe drop app].
  rewrite table_records, !wedge_total_count, !count_of_labels. simpl. rewrite Hd.
  rewrite Hp.
  destruct fs as [|f fs]; [done|]. simpl. do 3 f_equal. by rewrite map_map.
Qed.

(** C2: The script refines the specification's pipeline: with a
    client built and every loaded item written so that it reads back,
    what a pressed button's run shows -- the records of the table, the
    counts of the pie, the summary and the rows of the download --
    is the abstract pipeline applied to the loader's result: EmptyInput
    for no item, a fatal failure for a loader exception, and otherwise
    one record per item in order with TextBlob's label, their counts,
    the summary generator's text and the header and records as
    rows. *)
Theorem script_refines_spec `{Polarity} client_of getenv u t k :
  client_init getenv = Ok k ->
  (forall fs, Loader.load_feedback u t = Ok fs ->
     Forall (fun f => Forall Utf8.scalar f /\ Csv.csv_safe f = true) fs) ->
  observe (script client_of getenv u t true)
  = Some (spec_run (Loader.load_feedback u t) (fun f => classify (polarity f))
            (@generate_gpt_summary (client_of k))).
Proof.
  intros Hk Hsafe. rewrite (script_clicked _ _ _ _ _ Hk).
  destruct (Loader.load_feedback u t) as [fs|e] eqn:Hl.
  2:{ unfold analyze, analyze_pre, analyze_post, mbind, run_bind, lift. by rewrite Hl. }
  specialize (Hsafe fs eq_refl).
  destruct (decide (fs = [])) as [->|Hne].
  { unfold analyze, analyze_pre, analyze_post, mbind, run_bind, lift. by rewrite Hl. }
  assert (Hsc : Forall (Forall Utf8.scalar) fs) by (eapply Forall_impl; [exact Hsafe|]; naive_solver).
  destruct (Utf8.utf8_roundtrip _ (to_csv_scalar fs Hsc)) as (csv & He & Hd).
  rewrite (@analyze_pipeline _ (client_of k) u t fs csv) by done.
  apply observe_pipeline; [done|done|].
  unfold to_csv. change (df_rows (make_df fs)) with (zip fs (map analyze_sentiment fs)).
  rewrite zip_map_r, map_map. apply Csv.rows_read, rows_safe.
  eapply Forall_impl; [exact Hsafe|]. naive_solver.
Qed.


(** ** Concrete instances *)

(** The specification's scenario with a table scorer: three items, one
    of each label. *)
Lemma script_refines_spec_witness :
  observe (@script demo_polarity demo_client demo_env None demo_text true)
  = Some (spec_run (Loader.load_feedback None demo_text)
            (fun f => classify (@polarity demo_polarity f))
            (@generate_gpt_summary (demo_client (lit "sk-demo")))).
Proof.
  apply (@script_refines_spec demo_polarity demo_client demo_env None demo_text (lit "sk-demo"));
    [reflexivity|].
  intros fs Hl. vm_compute in Hl. injection Hl as <-.
  apply (bool_decide_unpack _). vm_compute. reflexivity.
Defined.

End Pipeline.
