(* ===== verification/Server.v ===== *)
(** * Server: runs that talk to the service, and the rerun loop

    [App] and [Session] take the text-generation service as a function
    ([ChatClient]).  Here the call of line 50,
    [client.chat.completions.create(...)], is an event of an
    interaction tree ([chatE]): the service answers each request as it
    likes, and nothing else of the run depends on it.

    - [analyze_tree] is the button handler with the call as an event:
      [App.analyze_pre] up to the summary's heading (lines 65-91), the
      request of [generate_gpt_summary] (line 50), and, on the answer,
      the rest of the summary function (lines 59-61) and
      [App.analyze_post] (lines 94-103).  [script_tree] is the whole
      run.
    - [finishes] is termination: a tree reaches its result after
      finitely many silent steps and service calls, each answered by
      the environment.  [script_tree_finishes] shows every run
      terminates, whatever the service answers, after the requests
      [requests] lists (at most one), with the page [App.script]
      computes with a client that gives the same answer.
    - [server] is Streamlit's loop ([ITree.iter]): wait for the next
      interaction ([NextEvent]), commit its widget changes, run the
      script, render its page ([Render]), forever.  [serves] is a
      coinductive liveness property (Paco): every interaction is
      answered by exactly one page, after finitely many steps, and then
      the server waits again.  [server_serves] shows the loop has it,
      with the pages [Session.rerun] computes. *)

From S2P Require Import Prelude PyStr Utf8 Sentiment Csv Loader Aggregate Summary App Session.
From ITree Require Import ITree.
From Paco Require Import paco.

Module Server.
Import Sentiment Aggregate Summary App Session.

Abbreviation page_result := (list element * (unit + halt))%type.

(** Line 50: a request, sent with the key the client was built with. *)
Variant chatE : Type -> Type :=
| Chat (key : pystr) (req : chat_request) : chatE (result chat_response).

(** The service's behaviour: the answer to the [n]-th request. *)
Definition service := nat -> pystr -> chat_request -> result chat_response.

(** The client that answers as the service does at its [n]-th
    request. *)
Definition client_at (ans : service) (n : nat) (key : pystr) : ChatClient :=
  {| create := ans n key |}.

(** The client whose request got the answer [r]. *)
Definition answered (r : result chat_response) : ChatClient := {| create := fun _ => r |}.

Section WithScorer.
Context `{Polarity} {E : Type -> Type} (inj : forall T, chatE T -> E T).

(** The [run] monad's bind, continued by a tree. *)
Definition run_then {A} (m : run A) (k : A -> list element -> itree E page_result)
    (page : list element) : itree E page_result :=
  match m page with
  | (page', inl a) => k a page'
  | (page', inr h) => Ret (page', inr h)
  end.

(** Lines 64-103: the handler, the request of line 50 as an event. *)
Definition analyze_tree (key : pystr) (upload_file : option Loader.upload) (text_input : pystr)
    : list element -> itree E page_result :=
  run_then (analyze_pre upload_file text_input) (fun feedbacks page =>
    ITree.bind (ITree.trigger (inj _ (Chat key (summary_request feedbacks)))) (fun r =>
      Ret (analyze_post feedbacks (@generate_gpt_summary (answered r) feedbacks) page))).

(** The whole run. *)
Definition script_tree (getenv : pystr -> option pystr) (upload_file : option Loader.upload)
    (text_input : pystr) (clicked : bool) : itree E page_result :=
  run_then (lift (client_init getenv)) (fun key =>
    run_then header (fun _ =>
      if clicked then analyze_tree key upload_file text_input else fun page => Ret (page, inl tt))) [].

End WithScorer.

(** ** Termination of a run *)

(** [finishes ans n t qs r]: from the [n]-th request on, [t] returns
    [r] after the requests [qs], each answered by [ans]. *)
Inductive finishes {E R} (inj : forall T, chatE T -> E T) (ans : service)
    : nat -> itree E R -> list (pystr * chat_request) -> R -> Prop :=
| fin_ret n t r : observe t = RetF r -> finishes inj ans n t [] r
| fin_tau n t u qs r : observe t = TauF u -> finishes inj ans n u qs r -> finishes inj ans n t qs r
| fin_chat n t key q k qs r :
    observe t = VisF (inj _ (Chat key q)) k -> finishes inj ans (S n) (k (ans n key q)) qs r ->
    finishes inj ans n t ((key, q) :: qs) r.

(** The requests a run sends: the summary request of the loaded items,
    when the client was built, the button pressed and the input yields
    items. *)
Definition requests `{Polarity} (getenv : pystr -> option pystr) (upload_file : option Loader.upload)
    (text_input : pystr) (clicked : bool) : list (pystr * chat_request) :=
  match client_init getenv, clicked, Loader.load_feedback upload_file text_input with
  | Ok key, true, Ok (f :: fs) => [(key, summary_request (f :: fs))]
  | _, _, _ => []
  end.

(** [ITree.bind] under [observe], one step. *)
Lemma observe_bind_step {F R S} (t : itree F R) (k : R -> itree F S) :
  observe (ITree.bind t k)
  = observe (match observe t with
             | RetF r => k r
             | TauF t0 => Tau (ITree.bind t0 k)
             | VisF e ke => Vis e (fun x => ITree.bind (ke x) k)
             end).
Proof. reflexivity. Qed.

Lemma observe_bind_ret2 {F A B C} (x : A) (f : A -> itree F B) (g : B -> itree F C) :
  observe (ITree.bind (ITree.bind (Ret x) f) g) = observe (ITree.bind (f x) g).
Proof. reflexivity. Qed.

Lemma observe_bind_trigger {F X R} (e : F X) (k : X -> itree F R) :
  observe (ITree.bind (ITree.trigger e) k) = VisF e (fun x => ITree.bind (Ret x) k).
Proof. reflexivity. Qed.

Definition analysis_page `{Polarity} (fs : list pystr) : list element :=
  [Subheader chart_heading; Pyplot (pie_wedges (value_counts (Aggregate.Sentiment (make_df fs))));
   Subheader table_heading; Dataframe (df_rows (make_df fs)); Subheader summary_heading].

(** The first part of the handler on each outcome of the loader. *)
Lemma analyze_pre_load `{Polarity} u t page :
  analyze_pre u t page =
  match Loader.load_feedback u t with
  | Raise e => (page, inr (Crashed e))
  | Ok [] => (page ++ [ErrorBox empty_input_msg], inr Stopped)
  | Ok fs => (page ++ analysis_page fs, inl fs)
  end.
Proof.
  unfold analyze_pre, mbind, run_bind, lift.
  destruct (Loader.load_feedback u t) as [[|f fs]|e]; [done| |done].
  rewrite bool_decide_false by done. unfold mret, run_ret, show. by rewrite <- !app_assoc.
Qed.

Lemma script_tree_finishes_in `{Polarity} {E} (inj : forall T, chatE T -> E T) ans n getenv u t c :
  finishes inj ans n (script_tree inj getenv u t c) (requests getenv u t c)
    (script (client_at ans n) getenv u t c).
Proof.
  unfold script_tree, run_then, requests, script, mbind, run_bind, lift.
  destruct (client_init getenv) as [key|e]; [|by apply fin_ret].
  rewrite header_run. destruct c; [|by apply fin_ret].
  unfold analyze_tree, analyze, run_then, mbind, run_bind.
  rewrite analyze_pre_load. destruct (Loader.load_feedback u t) as [[|f fs]|e]; [by apply fin_ret| |by apply fin_ret].
  eapply fin_chat; [apply observe_bind_trigger|]. by apply fin_ret.
Qed.

(** C34: Every run terminates, whatever the service answers: it
    returns after at most one request -- the summary request of the
    loaded items, with the configured key, exactly when the client was
    built, the button pressed and the input yields items -- and its
    page is the one [App.script] computes with a client that gives the
    service's answer. *)
Theorem script_tree_finishes `{Polarity} ans n getenv u t c :
  finishes (fun _ e => e) ans n (script_tree (fun _ e => e) getenv u t c) (requests getenv u t c)
    (script (client_at ans n) getenv u t c).
Proof. apply script_tree_finishes_in. Qed.

(** ** The rerun loop *)

(** Streamlit's side: the next interaction, and the page of a run. *)
Variant uiE : Type -> Type :=
| NextEvent : uiE event
| Render (r : page_result) : uiE unit.

Abbreviation serverE := (uiE +' chatE).

(** One turn: wait for an interaction, commit its widget changes
    ([Session.update]), run the script on them, render its page. *)
Definition serve_one `{Polarity} (getenv : pystr -> option pystr) (w : widgets)
    : itree serverE (widgets + void) :=
  ITree.bind (ITree.trigger (@inl1 uiE chatE _ NextEvent)) (fun e =>
    let w' := update w e in
    ITree.bind (script_tree (fun _ c => inr1 c) getenv (w_upload w') (w_text w') (ev_click e)) (fun r =>
      ITree.bind (ITree.trigger (@inl1 uiE chatE _ (Render r))) (fun _ => Ret (inl w')))).

(** The server: one turn after another, forever. *)
Definition server `{Polarity} (getenv : pystr -> option pystr) (w : widgets) : itree serverE void :=
  ITree.iter (serve_one getenv) w.

Section Serves.
Context `{Polarity} (getenv : pystr -> option pystr) (ans : service).

(** After a page: finitely many silent steps, then [r]. *)
Inductive settles (r : nat * widgets -> itree serverE void -> Prop) (s : nat * widgets)
    : itree serverE void -> Prop :=
| settle_tau t u : observe t = TauF u -> settles r s u -> settles r s t
| settle_now t : r s t -> settles r s t.

(** An interaction's answer: finitely many silent steps and exactly
    the service calls [qs], in order (the [m]-th answered by [ans m]),
    then the page [p], after which the server settles into [r] with the
    number of calls made and the widgets [w']. *)
Inductive responds (r : nat * widgets -> itree serverE void -> Prop) (w' : widgets) (p : page_result)
    : nat -> list (pystr * chat_request) -> itree serverE void -> Prop :=
| resp_tau m qs t u : observe t = TauF u -> responds r w' p m qs u -> responds r w' p m qs t
| resp_chat m qs t key q k :
    observe t = VisF (inr1 (Chat key q)) k -> responds r w' p (S m) qs (k (ans m key q)) ->
    responds r w' p m ((key, q) :: qs) t
| resp_render m t k :
    observe t = VisF (inl1 (Render p)) k -> settles r (m, w') (k tt) -> responds r w' p m [] t.

(** One step of [serves]: the server waits for an interaction, and
    answers every interaction [e] with the page of [Session.rerun],
    after exactly the requests [requests] lists for the committed
    widgets: the summary request when the button was pressed with
    items, none otherwise. *)
Variant servesF (r : nat * widgets -> itree serverE void -> Prop)
    : nat * widgets -> itree' serverE void -> Prop :=
| serves_wait n w k :
    (forall e, let w' := update w e in
       responds r w' (rerun (client_at ans n) getenv w e).2 n
         (requests getenv (w_upload w') (w_text w') (ev_click e)) (k e)) ->
    servesF r (n, w) (VisF (inl1 NextEvent) k).

Definition serves_gen (r : nat * widgets -> itree serverE void -> Prop)
    (s : nat * widgets) (t : itree serverE void) : Prop :=
  servesF r s (observe t).

Lemma settles_mono r r' s t : settles r s t -> (forall s t, r s t -> r' s t) -> settles r' s t.
Proof. induction 1; intros LE; [eapply settle_tau|apply settle_now]; eauto. Qed.

Lemma responds_mono r r' w' p m qs t :
  responds r w' p m qs t -> (forall s t, r s t -> r' s t) -> responds r' w' p m qs t.
Proof.
  induction 1; intros LE; [eapply resp_tau|eapply resp_chat|eapply resp_render]; eauto.
  by eapply settles_mono.
Qed.

Lemma serves_gen_mon : monotone2 serves_gen.
Proof.
  intros s t r r' Hs LE. unfold serves_gen in *. destruct Hs. constructor.
  intros e. eapply responds_mono; eauto.
Qed.
#[local] Hint Resolve serves_gen_mon : paco.

(** Liveness: forever, every interaction gets its page. *)
Definition serves (s : nat * widgets) (t : itree serverE void) : Prop := paco2 serves_gen bot2 s t.

Lemma responds_observe r w' p m qs t1 t2 :
  observe t1 = observe t2 -> responds r w' p m qs t1 -> responds r w' p m qs t2.
Proof.
  intros Ho Hr. inversion Hr; subst; rewrite Ho in *;
    [eapply resp_tau|eapply resp_chat|eapply resp_render]; eauto.
Qed.

(** A run that finishes, followed by the rendering of its page and by
    [g], answers its interaction. *)
Lemma finishes_responds r w' n t qs res (g : widgets + void -> itree serverE void) :
  finishes (E:=serverE) (fun _ c => inr1 c) ans n t qs res ->
  (forall m t', observe t' = observe (g (inl w')) -> settles r (m, w') t') ->
  responds r w' res n qs
    (ITree.bind (ITree.bind t (fun r => ITree.bind (ITree.trigger (@inl1 uiE chatE _ (Render r)))
                                         (fun _ => Ret (inl w')))) g).
Proof.
  intros Hf Hg. induction Hf as [n t res' Ht|n t u qs res' Ht _ IH|n t key q k qs res' Ht _ IH].
  - eapply resp_render; [by rewrite !observe_bind_step, Ht|]. by apply Hg.
  - eapply resp_tau; [by rewrite !observe_bind_step, Ht|]. exact IH.
  - eapply resp_chat; [by rewrite !observe_bind_step, Ht|]. exact IH.
Qed.

Lemma observe_iter {F A B} (body : A -> itree F (A + B)) (a : A) :
  observe (ITree.iter body a)
  = observe (ITree.bind (body a) (fun lr => ITree.on_left lr l (Tau (ITree.iter body l)))).
Proof. reflexivity. Qed.

(** C20: Liveness of the rerun loop: whatever the service answers, the
    server waits for an interaction, answers it after finitely many
    steps and exactly the service calls [requests] lists -- the summary
    request when the button was pressed and the input yields items,
    none otherwise -- with exactly one page, the page [Session.rerun]
    computes on the committed widgets with a client giving the
    service's answer, and then waits again,
    forever: no interaction goes unanswered and the loop never stalls
    silently. *)
Theorem server_serves n w : serves (n, w) (server getenv w).
Proof.
  revert n w. pcofix CIH. intros n w. pfold. unfold serves_gen, server.
  rewrite observe_iter. unfold serve_one. rewrite observe_bind_step, observe_bind_step.
  constructor. intros e. eapply responds_observe;
    [|eapply finishes_responds; [apply (script_tree_finishes_in (E:=serverE) (fun _ c => inr1 c))|]].
  - by rewrite observe_bind_ret2.
  - intros m t' Ht'. eapply settle_tau; [exact Ht'|]. apply settle_now. right. apply CIH.
Qed.

End Serves.

End Server.
